(** * floatchat: the chat service and its offline response engine

    A shallow embedding of [chatService] and [generateMockResponse]
    (frontend chat service), the code that answers a free-text
    oceanographic question when the analytics backend cannot be reached,
    and of the services beside it: [dashboardService], the PDF export of
    [exportService], [authService] and the provider of [AuthContext].

    - JavaScript strings are Rocq strings.  Text outside ASCII is held by
      its UTF-8 bytes; the eleven keywords the engine searches for are
      ASCII, so byte-wise search agrees with code-unit search.
    - A JavaScript number is written as a rational ([Q]) that stands for
      the binary64 number nearest to it: a literal is written as in the
      source, and [+], [-] and [*] of the source round as binary64 does
      ([B64]).  Sums of small integers, as the heights of the PDF export,
      are exact.
    - Object and array literals are values of one untyped type [Value],
      objects keeping their properties in source order.
    - [Math.random], the clock and the network are the platform, passed
      explicitly; the number of draws made so far and the console are the
      state threaded through the code. *)

From Stdlib Require Import Bool Arith List Lia.
From Stdlib Require Import Ascii String.
From Stdlib Require Import ZArith QArith Qminmax Qround Qpower Lqa.
From Stdlib Require Import Sorted.
Import ListNotations.

Open Scope string_scope.
Open Scope list_scope.

(** ** Strings *)

Module JsString.

(** [String.prototype.toLowerCase] on one unit: A..Z are moved to a..z, any
    other unit is kept.  Outside ASCII the platform follows the Unicode
    tables, which this model leaves out: they put non-ASCII text in place of
    non-ASCII text, except for U+212A, which becomes "k", a letter of no
    keyword, and U+0130, which becomes "i" followed by U+0307, and no
    keyword ends in "i"; so no occurrence of a keyword is made or lost. *)
Definition lowerUnit (c : ascii) : ascii :=
  let n := N_of_ascii c in
  if ((65 <=? n) && (n <=? 90))%N then ascii_of_N (n + 32) else c.

(** [String.prototype.toUpperCase] on one unit, the converse move. *)
Definition upperUnit (c : ascii) : ascii :=
  let n := N_of_ascii c in
  if ((97 <=? n) && (n <=? 122))%N then ascii_of_N (n - 32) else c.

Fixpoint toLowerCase (s : string) : string :=
  match s with
  | EmptyString => EmptyString
  | String c rest => String (lowerUnit c) (toLowerCase rest)
  end.

(** [s.startsWith(search)] *)
Fixpoint startsWith (s search : string) {struct search} : bool :=
  match search with
  | EmptyString => true
  | String c search' =>
      match s with
      | EmptyString => false
      | String d s' => Ascii.eqb c d && startsWith s' search'
      end
  end.

(** [s.includes(search)]: [search] starts at some position of [s]. *)
Fixpoint includes (s search : string) : bool :=
  startsWith s search
  || match s with
     | EmptyString => false
     | String _ s' => includes s' search
     end.

(** [t] is obtained from [s] by changing the case of some of its
    characters (possibly none). *)
Inductive recased : string -> string -> Prop :=
| recased_end : recased EmptyString EmptyString
| recased_keep c s t : recased s t -> recased (String c s) (String c t)
| recased_lower c s t : recased s t -> recased (String c s) (String (lowerUnit c) t)
| recased_upper c s t : recased s t -> recased (String c s) (String (upperUnit c) t).

(** [String.prototype.toUpperCase] outside ASCII: three rows of the Unicode
    case tables that put ASCII letters in place of non-ASCII text (U+017F,
    U+0131 and U+FB01).  [toLowerCase] leaves the three unchanged: they are
    lower-case already. *)
Definition upperOutsideAscii : list (string * string) :=
  [("ſ", "S"); ("ı", "I"); ("ﬁ", "FI")].

(** [t] is obtained from [s] by changing the case of some of its
    characters, those of [upperOutsideAscii] among them. *)
Inductive recasedWide : string -> string -> Prop :=
| recasedWide_ascii s t : recased s t -> recasedWide s t
| recasedWide_upper pre c u post :
    In (c, u) upperOutsideAscii ->
    recasedWide (pre ++ c ++ post)%string (pre ++ u ++ post)%string
| recasedWide_trans s t u : recasedWide s t -> recasedWide t u -> recasedWide s u.

End JsString.
Import JsString.

(** ** Values *)

(** What an object or array literal of the source evaluates to. *)
#[warnings="-register-all"]
Inductive Value : Type :=
| Undefined
| Null
| Bool (b : bool)
| Num (n : Q)
| Str (s : string)
| Arr (items : list Value)
| Obj (props : list (string * Value)).

Definition nums (l : list Q) : Value := Arr (map Num l).
Definition strs (l : list string) : Value := Arr (map Str l).

Fixpoint lookup (key : string) (props : list (string * Value)) : option Value :=
  match props with
  | [] => None
  | (k, v) :: rest => if String.eqb k key then Some v else lookup key rest
  end.

(** Property read [v.key]; [None] when [v] has no such property. *)
Definition get (key : string) (v : Value) : option Value :=
  match v with
  | Obj props => lookup key props
  | _ => None
  end.

(** Element read [v[i]]. *)
Definition item (i : nat) (v : Value) : option Value :=
  match v with
  | Arr items => nth_error items i
  | _ => None
  end.

(** One step of an access path: a property name or an array index. *)
Inductive Sel : Type :=
| Key (key : string)
| Idx (i : nat).

(** Access path [v.k1[i].k2...]. *)
Fixpoint path (sels : list Sel) (v : Value) : option Value :=
  match sels with
  | [] => Some v
  | sel :: rest =>
      match (match sel with Key k => get k v | Idx i => item i v end) with
      | Some w => path rest w
      | None => None
      end
  end.

Definition asArr (v : option Value) : option (list Value) :=
  match v with
  | Some (Arr items) => Some items
  | _ => None
  end.

Definition asNum (v : option Value) : option Q :=
  match v with
  | Some (Num n) => Some n
  | _ => None
  end.

Definition asStr (v : option Value) : option string :=
  match v with
  | Some (Str s) => Some s
  | _ => None
  end.

(** The numbers of an array of numbers; [None] if an element is not one. *)
Fixpoint numbers (items : list Value) : option (list Q) :=
  match items with
  | [] => Some []
  | Num n :: rest =>
      match numbers rest with
      | Some l => Some (n :: l)
      | None => None
      end
  | _ :: _ => None
  end.

Definition asNums (v : option Value) : option (list Q) :=
  match v with
  | Some (Arr items) => numbers items
  | _ => None
  end.

(** ** Platform and state *)

Inductive AxiosResult : Type :=
| Fulfilled (response : Value)
| Rejected (error : Value).

Record Platform : Type := {
  (* the value of the k-th call of Math.random() *)
  Math_random : nat -> Q;
  (* toISOString().split('T')[0] of the day daysAgo days before today *)
  isoDate : nat -> string;
  (* toLocaleDateString() of the day daysAgo days before today *)
  localeDate : nat -> string;
  (* new Date().toISOString() *)
  nowISO : string;
  (* import.meta.env.VITE_API_URL *)
  VITE_API_URL : option string;
  (* outcome of axios.post(url, body, config) *)
  axios_post : string -> Value -> Value -> AxiosResult;
  (* outcome of axios.get(url, config) *)
  axios_get : string -> Value -> AxiosResult
}.

Record World : Type := {
  drawn : nat;                    (* calls of Math.random() so far *)
  console : list (list Value)     (* console.error lines, oldest first *)
}.

Definition M (A : Type) : Type := World -> A * World.

Definition ret {A} (a : A) : M A := fun w => (a, w).

Definition bind {A B} (m : M A) (f : A -> M B) : M B :=
  fun w => let (a, w') := m w in f a w'.

Notation "x <- m ;; k" := (bind m (fun x => k))
  (at level 61, m at next level, right associativity).

Definition random (p : Platform) : M Q :=
  fun w => (Math_random p (drawn w),
            {| drawn := S (drawn w); console := console w |}).

Definition console_error (line : list Value) : M unit :=
  fun w => (tt, {| drawn := drawn w; console := console w ++ [line] |}).

(** [Array.from({length: len}, (_, i) => f i)]: [f] is called for
    i = 0, 1, ..., len-1 in that order. *)
Fixpoint from_index {A} (f : nat -> M A) (i len : nat) : M (list A) :=
  match len with
  | O => ret []
  | S len' =>
      a <- f i ;;
      rest <- from_index f (S i) len' ;;
      ret (a :: rest)
  end.

Definition Array_from {A} (len : nat) (f : nat -> M A) : M (list A) :=
  from_index f 0 len.

(** ** Numbers

    A rational [q] stands for the binary64 number nearest to it,
    [B64.round q], ties going to the even significand; below 2^-1022 the
    numbers are 2^-1074 apart.  [B64.add], [B64.sub], [B64.mul], [B64.leb]
    and [B64.eqb] are [+], [-], [*], [<=] and [===] on numbers: exact on
    what the operands stand for, the result rounded.  Magnitudes from 2^1024
    on, which round to Infinity, are outside the model; none arises from
    draws in [0, 1). *)

Module B64.

Local Open Scope Q_scope.

(** The exponent of the binade of a positive [x]: the [e] with
    2^e <= x < 2^(e+1). *)
Definition ilog2 (x : Q) : Z :=
  let e := (Z.log2 (Qnum x) - Z.log2 (Zpos (Qden x)))%Z in
  if Qle_bool (2 ^ e) x then e else (e - 1)%Z.

(** The distance between the binary64 numbers around a positive [x]. *)
Definition ulp (x : Q) : Q := 2 ^ (Z.max (ilog2 x) (-1022) - 52).

(** The integer nearest to [x], the even one of two equally near. *)
Definition rne (x : Q) : Z :=
  let f := Qfloor x in
  match Qcompare (x - inject_Z f) (1 # 2) with
  | Lt => f
  | Gt => (f + 1)%Z
  | Eq => if Z.even f then f else (f + 1)%Z
  end.

Definition roundPos (x : Q) : Q := inject_Z (rne (x / ulp x)) * ulp x.

Definition round (x : Q) : Q :=
  match Qcompare x 0 with
  | Eq => 0
  | Gt => roundPos x
  | Lt => - roundPos (- x)
  end.

Definition add (a b : Q) : Q := round (round a + round b).
Definition sub (a b : Q) : Q := round (round a - round b).
Definition mul (a b : Q) : Q := round (round a * round b).

Definition leb (a b : Q) : bool := Qle_bool (round a) (round b).
Definition eqb (a b : Q) : bool := Qeq_bool (round a) (round b).

End B64.

(** ** Mock data generation functions *)

Open Scope Q_scope.

Definition generateTemperatureAnomalyData : Value :=
  Obj [
    ("region", Str "North Atlantic");
    ("parameter", Str "temperature");
    ("anomalies", Arr [
      Obj [("date", Str "2024-01-15"); ("value", Num 20.1); ("anomaly", Num 2.1);
           ("lat", Num 45.2); ("lon", Num (-30.1))];
      Obj [("date", Str "2024-01-22"); ("value", Num 16.2); ("anomaly", Num (-1.8));
           ("lat", Num 47.8); ("lon", Num (-28.5))];
      Obj [("date", Str "2024-02-03"); ("value", Num 21.2); ("anomaly", Num 3.2);
           ("lat", Num 44.1); ("lon", Num (-32.3))]
    ]);
    ("statistics", Obj [
      ("total_anomalies", Num 3);
      ("max_positive", Num 3.2);
      ("max_negative", Num (-1.8));
      ("confidence", Num 0.95)
    ])
  ].

Definition generateTemperatureAnomalyVisualization : Value :=
  Obj [
    ("data", Arr [
      Obj [
        ("x", strs ["Jan 1"; "Jan 8"; "Jan 15"; "Jan 22"; "Jan 29"; "Feb 5"; "Feb 12";
                    "Feb 19"; "Feb 26"]%string);
        ("y", nums [18.2; 18.5; 20.1; 16.2; 18.9; 21.2; 18.7; 19.1; 18.4]);
        ("type", Str "scatter");
        ("mode", Str "lines+markers");
        ("name", Str "Temperature");
        ("line", Obj [("color", Str "#0891b2"); ("width", Num 3)]);
        ("marker", Obj [("size", Num 8)])
      ];
      Obj [
        ("x", strs ["Jan 15"; "Jan 22"; "Feb 5"]%string);
        ("y", nums [20.1; 16.2; 21.2]);
        ("type", Str "scatter");
        ("mode", Str "markers");
        ("name", Str "Anomalies");
        ("marker", Obj [("color", Str "#dc2626"); ("size", Num 12); ("symbol", Str "x")])
      ]
    ]);
    ("layout", Obj [
      ("title", Str "Temperature Anomaly Detection");
      ("xaxis", Obj [("title", Str "Date")]);
      ("yaxis", Obj [("title", Str "Temperature (°C)")])
    ])
  ].

Definition generateDepthProfileData : Value :=
  Obj [
    ("depths", nums [0; 10; 20; 50; 100; 150; 200; 300; 500; 750; 1000; 1500; 2000]);
    ("temperatures", nums [22.1; 21.8; 21.2; 19.5; 16.8; 13.2; 10.5; 8.1; 6.2; 5.1;
                           4.8; 4.2; 4.0]);
    ("location", Obj [("lat", Num 40.5); ("lon", Num (-30.0));
                      ("region", Str "North Atlantic")])
  ].

Definition generateDepthProfileVisualization : Value :=
  Obj [
    ("data", Arr [
      Obj [
        ("x", nums [22.1; 21.8; 21.2; 19.5; 16.8; 13.2; 10.5; 8.1; 6.2; 5.1; 4.8; 4.2; 4.0]);
        ("y", nums [0; 10; 20; 50; 100; 150; 200; 300; 500; 750; 1000; 1500; 2000]);
        ("type", Str "scatter");
        ("mode", Str "lines+markers");
        ("name", Str "Temperature Profile");
        ("line", Obj [("color", Str "#dc2626"); ("width", Num 3)])
      ]
    ]);
    ("layout", Obj [
      ("title", Str "Ocean Temperature Depth Profile");
      ("xaxis", Obj [("title", Str "Temperature (°C)")]);
      ("yaxis", Obj [("title", Str "Depth (m)"); ("autorange", Str "reversed")])
    ])
  ].

Definition generateTrendData : Value :=
  Obj [
    ("years", nums [2009; 2010; 2011; 2012; 2013; 2014; 2015; 2016; 2017; 2018; 2019;
                    2020; 2021; 2022; 2023; 2024]);
    ("temperatures", nums [17.8; 17.9; 18.1; 18.0; 18.3; 18.4; 18.6; 18.8; 18.7; 19.0;
                           19.2; 19.1; 19.3; 19.5; 19.4; 19.6]);
    ("trend_slope", Num 0.015);
    ("r_squared", Num 0.87)
  ].

Definition generateTrendVisualization : Value :=
  Obj [
    ("data", Arr [
      Obj [
        ("x", nums [2009; 2010; 2011; 2012; 2013; 2014; 2015; 2016; 2017; 2018; 2019;
                    2020; 2021; 2022; 2023; 2024]);
        ("y", nums [17.8; 17.9; 18.1; 18.0; 18.3; 18.4; 18.6; 18.8; 18.7; 19.0; 19.2;
                    19.1; 19.3; 19.5; 19.4; 19.6]);
        ("type", Str "scatter");
        ("mode", Str "lines+markers");
        ("name", Str "Annual Mean Temperature");
        ("line", Obj [("color", Str "#0891b2"); ("width", Num 2)])
      ];
      Obj [
        ("x", nums [2009; 2024]);
        ("y", nums [17.775; 19.625]);
        ("type", Str "scatter");
        ("mode", Str "lines");
        ("name", Str "Trend (+0.15°C/decade)");
        ("line", Obj [("color", Str "#dc2626"); ("width", Num 3); ("dash", Str "dash")])
      ]
    ]);
    ("layout", Obj [
      ("title", Str "Long-term Temperature Trend Analysis");
      ("xaxis", Obj [("title", Str "Year")]);
      ("yaxis", Obj [("title", Str "Temperature (°C)")])
    ])
  ].

(** One synthetic temperature: [18.7 + (Math.random() - 0.5) * 4.6]. *)
Definition jitter (r : Q) : Q := B64.add 18.7 (B64.mul (B64.sub r 0.5) 4.6).

Definition drawTemperature (p : Platform) : M Value :=
  r <- random p ;; ret (Num (jitter r)).

Definition generateTemperatureTimeSeriesData (p : Platform) : M Value :=
  dates <- Array_from 30 (fun i => ret (Str (isoDate p (29 - i)))) ;;
  temperatures <- Array_from 30 (fun _ => drawTemperature p) ;;
  ret (Obj [
    ("dates", Arr dates);
    ("temperatures", Arr temperatures);
    ("statistics", Obj [
      ("mean", Num 18.7);
      ("std", Num 2.3);
      ("min", Num 15.2);
      ("max", Num 22.1);
      ("valid_measurements", Num 0.96);
      ("active_floats", Num 47)
    ])
  ]).

Definition generateTemperatureTimeSeriesVisualization (p : Platform) : M Value :=
  dates <- Array_from 30 (fun i => ret (Str (localeDate p (29 - i)))) ;;
  temperatures <- Array_from 30 (fun _ => drawTemperature p) ;;
  ret (Obj [
    ("data", Arr [
      Obj [
        ("x", Arr dates);
        ("y", Arr temperatures);
        ("type", Str "scatter");
        ("mode", Str "lines+markers");
        ("name", Str "Temperature");
        ("line", Obj [("color", Str "#0891b2"); ("width", Num 3)])
      ]
    ]);
    ("layout", Obj [
      ("title", Str "Ocean Temperature Time Series");
      ("xaxis", Obj [("title", Str "Date")]);
      ("yaxis", Obj [("title", Str "Temperature (°C)")])
    ])
  ]).

Definition marker (lat lon : Q) (title description : string)
    (data : list (string * string)) : Value :=
  Obj [("lat", Num lat); ("lon", Num lon); ("title", Str title);
       ("description", Str description);
       ("data", Obj (map (fun kv => (fst kv, Str (snd kv))) data))].

Definition generateTemperatureMapData : Value :=
  Obj [
    ("markers", Arr [
      marker 42.3 (-71.1) "Float #2847" "Temperature: 19.2°C"
             [("temp", "19.2°C"); ("salinity", "35.1 PSU")]%string;
      marker 40.7 (-74.0) "Float #2851" "Temperature: 18.5°C"
             [("temp", "18.5°C"); ("salinity", "35.3 PSU")]%string;
      marker 39.1 (-76.8) "Float #2856" "Temperature: 17.8°C"
             [("temp", "17.8°C"); ("salinity", "35.0 PSU")]%string
    ])
  ].

Definition generateSalinityData : Value :=
  Obj [
    ("depths", nums [0; 25; 50; 100; 200; 400; 600; 800; 1000; 1500; 2000]);
    ("salinity", nums [34.8; 35.1; 35.3; 35.6; 35.8; 35.9; 35.9; 35.8; 35.7; 35.5; 35.4]);
    ("statistics", Obj [("mean", Num 35.2); ("std", Num 0.4); ("halocline_depth", Num 250)])
  ].

Definition generateSalinityVisualization : Value :=
  Obj [
    ("data", Arr [
      Obj [
        ("x", nums [34.8; 35.1; 35.3; 35.6; 35.8; 35.9; 35.9; 35.8; 35.7; 35.5; 35.4]);
        ("y", nums [0; 25; 50; 100; 200; 400; 600; 800; 1000; 1500; 2000]);
        ("type", Str "scatter");
        ("mode", Str "lines+markers");
        ("name", Str "Salinity Profile");
        ("line", Obj [("color", Str "#059669"); ("width", Num 3)])
      ]
    ]);
    ("layout", Obj [
      ("title", Str "Ocean Salinity Depth Profile");
      ("xaxis", Obj [("title", Str "Salinity (PSU)")]);
      ("yaxis", Obj [("title", Str "Depth (m)"); ("autorange", Str "reversed")])
    ])
  ].

Definition generateCurrentData : Value :=
  Obj [
    ("velocities", nums [0.15; 0.23; 0.31; 0.28; 0.19; 0.34; 0.41; 0.38; 0.25; 0.29]);
    ("directions", nums [225; 230; 235; 220; 240; 225; 215; 230; 235; 228]);
    ("statistics", Obj [("mean_velocity", Num 0.28); ("predominant_direction", Num 228)])
  ].

Definition generateCurrentMapData : Value :=
  Obj [
    ("markers", Arr [
      marker 35.5 (-75.0) "Current Station A" "Velocity: 0.31 m/s SW"
             [("velocity", "0.31 m/s"); ("direction", "225°")]%string;
      marker 36.2 (-74.5) "Current Station B" "Velocity: 0.28 m/s SW"
             [("velocity", "0.28 m/s"); ("direction", "230°")]%string
    ])
  ].

Definition generateCurrentTimeSeriesVisualization : Value :=
  Obj [
    ("data", Arr [
      Obj [
        ("x", strs ["Week 1"; "Week 2"; "Week 3"; "Week 4"]%string);
        ("y", nums [0.25; 0.32; 0.28; 0.31]);
        ("type", Str "bar");
        ("name", Str "Current Velocity");
        ("marker", Obj [("color", Str "#7c3aed")])
      ]
    ]);
    ("layout", Obj [
      ("title", Str "Ocean Current Velocity Over Time");
      ("xaxis", Obj [("title", Str "Time Period")]);
      ("yaxis", Obj [("title", Str "Velocity (m/s)")])
    ])
  ].

Definition generateAtlanticData : Value :=
  Obj [
    ("region", Str "North Atlantic");
    ("temperature_range", nums [12.5; 24.8]);
    ("salinity_range", nums [34.2; 36.5]);
    ("characteristics", strs ["Gulf Stream influence"; "Strong seasonal cycles";
                              "Deep water formation"]%string)
  ].

Definition generateAtlanticMapData : Value :=
  Obj [
    ("markers", Arr [
      marker 40.0 (-70.0) "Gulf Stream" "Warm current system"
             [("temp", "22.5°C"); ("salinity", "36.2 PSU")]%string;
      marker 45.0 (-45.0) "North Atlantic Current" "Extension of Gulf Stream"
             [("temp", "15.8°C"); ("salinity", "35.4 PSU")]%string;
      marker 35.0 (-65.0) "Sargasso Sea" "Subtropical gyre center"
             [("temp", "24.1°C"); ("salinity", "36.8 PSU")]%string
    ])
  ].

Definition generateAtlanticTimeSeriesVisualization : Value :=
  Obj [
    ("data", Arr [
      Obj [
        ("x", strs ["Jan"; "Feb"; "Mar"; "Apr"; "May"; "Jun"; "Jul"; "Aug"; "Sep"; "Oct";
                    "Nov"; "Dec"]%string);
        ("y", nums [16.2; 15.8; 16.5; 18.2; 20.1; 22.5; 24.8; 24.2; 22.8; 20.5; 18.9; 17.1]);
        ("type", Str "scatter");
        ("mode", Str "lines+markers");
        ("name", Str "North Atlantic SST");
        ("line", Obj [("color", Str "#0891b2"); ("width", Num 3)])
      ]
    ]);
    ("layout", Obj [
      ("title", Str "North Atlantic Seasonal Temperature Cycle");
      ("xaxis", Obj [("title", Str "Month")]);
      ("yaxis", Obj [("title", Str "Temperature (°C)")])
    ])
  ].

Definition generatePacificData : Value :=
  Obj [
    ("region", Str "Pacific Ocean");
    ("area", Str "165.2 million km²");
    ("characteristics", strs ["Largest ocean basin"; "Ring of Fire";
                              "El Niño/La Niña oscillations"]%string);
    ("depth_stats", Obj [("mean", Num 4280); ("max", Num 11034)])
  ].

Definition generatePacificMapData : Value :=
  Obj [
    ("markers", Arr [
      marker 0 (-150) "Equatorial Pacific" "Upwelling zone"
             [("temp", "26.8°C"); ("salinity", "34.5 PSU")]%string;
      marker 35 (-140) "Kuroshio Current" "Western boundary current"
             [("temp", "18.5°C"); ("salinity", "34.8 PSU")]%string;
      marker (-20) (-150) "South Pacific Gyre" "Subtropical circulation"
             [("temp", "25.2°C"); ("salinity", "35.2 PSU")]%string
    ])
  ].

Definition generateDefaultData : Value :=
  Obj [
    ("measurement_count", Num 1247);
    ("float_count", Num 23);
    ("date_range", Str "2024-01-01 to 2024-02-01");
    ("parameters", strs ["temperature"; "salinity"; "pressure"]%string)
  ].

Definition generateDefaultVisualization : Value :=
  Obj [
    ("data", Arr [
      Obj [
        ("x", strs ["Week 1"; "Week 2"; "Week 3"; "Week 4"]%string);
        ("y", nums [18.2; 18.7; 17.9; 19.1]);
        ("type", Str "scatter");
        ("mode", Str "lines+markers");
        ("name", Str "Ocean Parameter");
        ("line", Obj [("color", Str "#0891b2"); ("width", Num 3)])
      ]
    ]);
    ("layout", Obj [
      ("title", Str "Ocean Data Analysis");
      ("xaxis", Obj [("title", Str "Time Period")]);
      ("yaxis", Obj [("title", Str "Measurement Value")])
    ])
  ].

(** ** The response of each branch of [generateMockResponse]

    Properties of an object literal are evaluated in source order: [data]
    first, then the elements of [visualizations] from left to right. *)

Definition response (message : string) (data : Value) (visualizations : list Value)
    (suggestions : list string) : Value :=
  Obj [("message", Str message); ("data", data);
       ("visualizations", Arr visualizations); ("suggestions", strs suggestions)].

Definition plot (data : Value) : Value := Obj [("type", Str "plot"); ("data", data)].
Definition map_ (data : Value) : Value := Obj [("type", Str "map"); ("data", data)].

Definition temperatureAnomalyResponse : M Value :=
  ret (response
    "I've analyzed temperature anomalies in the requested region. The data shows 3 significant temperature anomalies in the past month, with deviations of +2.1°C, -1.8°C, and +3.2°C from the seasonal average. These anomalies are highlighted in the visualization below."
    generateTemperatureAnomalyData
    [plot generateTemperatureAnomalyVisualization]
    ["Show depth profile for these anomalies";
     "Compare with historical data";
     "Analyze salinity during anomaly periods";
     "Check ocean current patterns"]%string).

Definition temperatureDepthProfileResponse : M Value :=
  ret (response
    "Here's the temperature depth profile for the selected region. The thermocline is clearly visible at approximately 200-800m depth, with surface temperatures around 22°C decreasing to 4°C at 2000m depth."
    generateDepthProfileData
    [plot generateDepthProfileVisualization]
    ["Show salinity depth profile";
     "Compare different seasons";
     "Analyze thermocline variability";
     "Display mixed layer depth"]%string).

Definition temperatureTrendResponse : M Value :=
  ret (response
    "Temperature trend analysis shows a warming trend of +0.15°C per decade in this region. The analysis covers the last 15 years of ARGO data with high confidence intervals. Seasonal patterns show peak temperatures in August-September."
    generateTrendData
    [plot generateTrendVisualization]
    ["Show confidence intervals";
     "Compare with global trends";
     "Analyze seasonal variations";
     "Project future temperatures"]%string).

Definition temperatureGenericResponse (p : Platform) : M Value :=
  data <- generateTemperatureTimeSeriesData p ;;
  series <- generateTemperatureTimeSeriesVisualization p ;;
  ret (response
    "I've retrieved temperature data for your specified region and time period. The analysis shows mean temperatures of 18.7°C with a standard deviation of 2.3°C. Data quality is excellent with 96% valid measurements from 47 active floats."
    data
    [plot series; map_ generateTemperatureMapData]
    ["Show temperature depth profile";
     "Analyze temperature anomalies";
     "Compare with salinity data";
     "Display seasonal patterns"]%string).

Definition salinityResponse : M Value :=
  ret (response
    "Salinity analysis completed for the requested area. Average salinity is 35.2 PSU with interesting variability near the surface due to precipitation and evaporation effects. The halocline is well-defined between 100-400m depth."
    generateSalinityData
    [plot generateSalinityVisualization]
    ["Show salinity-temperature relationship";
     "Analyze density profiles";
     "Display freshwater influence";
     "Compare with temperature data"]%string).

Definition currentVelocityResponse : M Value :=
  ret (response
    "Ocean current analysis shows predominant southwestward flow with average velocities of 0.23 m/s. Strong seasonal variability is observed with peak velocities during winter months. The current structure shows typical characteristics of the regional circulation pattern."
    generateCurrentData
    [map_ generateCurrentMapData; plot generateCurrentTimeSeriesVisualization]
    ["Show velocity depth profile";
     "Analyze current direction patterns";
     "Compare with wind data";
     "Display eddy activity"]%string).

Definition atlanticResponse : M Value :=
  ret (response
    "North Atlantic Ocean analysis reveals typical mid-latitude oceanic conditions. The region shows strong seasonal temperature cycles, well-developed thermocline structure, and characteristic salinity patterns influenced by the Gulf Stream system."
    generateAtlanticData
    [map_ generateAtlanticMapData; plot generateAtlanticTimeSeriesVisualization]
    ["Analyze Gulf Stream influence";
     "Show North Atlantic Oscillation effects";
     "Compare with Pacific data";
     "Display seasonal variations"]%string).

Definition pacificResponse : M Value :=
  ret (response
    "Pacific Ocean data analysis reveals the vast scale and complexity of this ocean basin. Temperature patterns show strong equatorial upwelling, El Niño/La Niña influences, and distinct North-South gradients. The Pacific contains the world's deepest ocean trenches reflected in our depth profile data."
    generatePacificData
    [map_ generatePacificMapData]
    ["Show El Niño effects";
     "Analyze Pacific Decadal Oscillation";
     "Display equatorial upwelling";
     "Compare North vs South Pacific"]%string).

Definition defaultResponse : M Value :=
  ret (response
    "I've processed your ocean data query and prepared a comprehensive analysis. The data includes measurements from multiple ARGO floats covering temperature, salinity, and depth information. The visualization shows spatial and temporal patterns in the requested parameters."
    generateDefaultData
    [plot generateDefaultVisualization]
    ["Show me temperature trends";
     "Analyze salinity patterns";
     "Display depth profiles";
     "Find temperature anomalies"]%string).

(** ** [generateMockResponse] *)

Definition generateMockResponse (p : Platform) (message : string) : M Value :=
  let lowerMessage := toLowerCase message in
  (* Temperature queries *)
  if includes lowerMessage "temperature" then
    if includes lowerMessage "anomaly" || includes lowerMessage "unusual" then
      temperatureAnomalyResponse
    else if includes lowerMessage "depth" || includes lowerMessage "profile" then
      temperatureDepthProfileResponse
    else if includes lowerMessage "trend" then
      temperatureTrendResponse
    else
      temperatureGenericResponse p
  (* Salinity queries *)
  else if includes lowerMessage "salinity" then
    salinityResponse
  (* Current/velocity queries *)
  else if includes lowerMessage "current" || includes lowerMessage "velocity" then
    currentVelocityResponse
  (* Geographic specific queries *)
  else if includes lowerMessage "atlantic" then
    atlanticResponse
  else if includes lowerMessage "pacific" then
    pacificResponse
  (* Default comprehensive response *)
  else
    defaultResponse.

(** The nine branches of [generateMockResponse], by the names the design
    gives them, and the branch that a lower-cased message selects. *)
Inductive Intent : Type :=
| TemperatureAnomaly
| TemperatureDepthProfile
| TemperatureTrend
| TemperatureGeneric
| Salinity
| CurrentVelocity
| RegionAtlantic
| RegionPacific
| Default.

Definition normalize (text : string) : string := toLowerCase text.

Definition resolve (normalizedText : string) : Intent :=
  if includes normalizedText "temperature" then
    if includes normalizedText "anomaly" || includes normalizedText "unusual" then
      TemperatureAnomaly
    else if includes normalizedText "depth" || includes normalizedText "profile" then
      TemperatureDepthProfile
    else if includes normalizedText "trend" then
      TemperatureTrend
    else
      TemperatureGeneric
  else if includes normalizedText "salinity" then Salinity
  else if includes normalizedText "current" || includes normalizedText "velocity" then
    CurrentVelocity
  else if includes normalizedText "atlantic" then RegionAtlantic
  else if includes normalizedText "pacific" then RegionPacific
  else Default.

(** The object returned in the branch of an intent. *)
Definition respond (p : Platform) (intent : Intent) : M Value :=
  match intent with
  | TemperatureAnomaly => temperatureAnomalyResponse
  | TemperatureDepthProfile => temperatureDepthProfileResponse
  | TemperatureTrend => temperatureTrendResponse
  | TemperatureGeneric => temperatureGenericResponse p
  | Salinity => salinityResponse
  | CurrentVelocity => currentVelocityResponse
  | RegionAtlantic => atlanticResponse
  | RegionPacific => pacificResponse
  | Default => defaultResponse
  end.

(** The orchestrator of the specification is [generateMockResponse]. *)
Definition classifyAndRespond (p : Platform) (rawText : string) : M Value :=
  generateMockResponse p rawText.

(** ** [chatService] *)

(** [a || b] on an optional string: [b] when [a] is undefined or empty. *)
Definition orElse (a : option string) (b : string) : string :=
  match a with
  | Some s => if String.eqb s "" then b else s
  | None => b
  end.

Definition API_BASE_URL (p : Platform) : string :=
  orElse (VITE_API_URL p) "http://localhost:8000".

(** [response.data] *)
Definition dataOf (response : Value) : Value :=
  match get "data" response with
  | Some d => d
  | None => Undefined
  end.

Definition sendMessage (p : Platform) (message : string) : M Value :=
  match
    axios_post p (API_BASE_URL p ++ "/api/chat/")
      (Obj [("message", Str message); ("timestamp", Str (nowISO p))])
      (Obj [("timeout", Num 30000);
            ("headers", Obj [("Content-Type", Str "application/json")])])
  with
  | Fulfilled response => ret (dataOf response)
  | Rejected error =>
      _ <- console_error [Str "Chat service error:"; error] ;;
      (* Return more sophisticated mock responses based on query content *)
      mockResponse <- generateMockResponse p message ;;
      ret mockResponse
  end.

Definition getChatHistory (p : Platform) (userId : option string) : M Value :=
  match
    axios_get p (API_BASE_URL p ++ "/api/chat/history")
      (Obj [("params", Obj [("user_id", Str (orElse userId "demo"))])])
  with
  | Fulfilled response => ret (dataOf response)
  | Rejected error =>
      _ <- console_error [Str "Error fetching chat history:"; error] ;;
      ret (Obj [("messages", Arr [])])
  end.

(** ** [dashboardService] *)

(** The dashboard shown when the backend cannot be reached. *)
Definition fallbackDashboard : Value :=
  Obj [
    ("stats", Obj [
      ("activeFloats", Num 3847);
      ("avgTemperature", Num 18.2);
      ("dataPoints", Num 2100000);
      ("trend", Num 1.2)
    ]);
    ("recentQueries", strs [
      "Show temperature profiles for the Pacific Ocean";
      "What is the salinity trend in the Mediterranean?";
      "Display current data for the Gulf Stream";
      "Temperature anomalies in the Arctic Ocean"
    ]%string)
  ].

(** [axios.get(url)] is called without a configuration. *)
Definition getDashboardData (p : Platform) : M Value :=
  match axios_get p (API_BASE_URL p ++ "/api/dashboard") Undefined with
  | Fulfilled response => ret (dataOf response)
  | Rejected error =>
      _ <- console_error [Str "Dashboard service error:"; error] ;;
      ret fallbackDashboard
  end.

(** The function has no [return]: its result is [undefined]. *)
Definition saveQuery (p : Platform) (query : string) (results : Value) : M Value :=
  match
    axios_post p (API_BASE_URL p ++ "/api/dashboard/save-query")
      (Obj [("query", Str query); ("results", results); ("timestamp", Str (nowISO p))])
      Undefined
  with
  | Fulfilled _ => ret Undefined
  | Rejected error =>
      _ <- console_error [Str "Save query error:"; error] ;;
      ret Undefined
  end.

(** ** [exportService.exportChatToPDF]

    The PDF library is modelled by the calls made on the document, in
    order; its calls are taken to succeed.  A message is what the chat
    view passes: an object with a [type] and a string [content]. *)

Inductive PdfCall : Type :=
| setFontSize (size : Q)
| text (s : string) (x y : Q)
| textLines (lines : list string) (x y : Q)
| addPage
| save (filename : string).

Record PdfPlatform : Type := {
  (* pdf.internal.pageSize.getWidth() *)
  pageWidth : Q;
  (* pdf.splitTextToSize(text, maxWidth) *)
  splitTextToSize : string -> Q -> list string;
  (* new Date().toLocaleString() *)
  localeNow : string
}.

Record ChatMessage : Type := {
  msg_type : string;
  msg_content : string
}.

Definition margin : Q := 20.

(** The text drawn for a message: a prefix, then the content. *)
Definition messageText (message : ChatMessage) : string :=
  let prefix := if String.eqb (msg_type message) "user" then "User: " else "Bot: " in
  (prefix ++ msg_content message)%string.

(** One round of [messages.forEach]: the state is [yPosition] and the calls
    made so far. *)
Definition drawMessage (lib : PdfPlatform) (state : Q * list PdfCall)
    (message : ChatMessage) : Q * list PdfCall :=
  let (yPosition, calls) := state in
  let (yPosition, calls) :=
    if negb (Qle_bool yPosition 250)            (* yPosition > 250 *)
    then (margin, calls ++ [addPage])
    else (yPosition, calls) in
  let splitText := splitTextToSize lib (messageText message) (pageWidth lib - 2 * margin) in
  (yPosition + (inject_Z (Z.of_nat (List.length splitText)) * 7 + 10),
   calls ++ [textLines splitText margin yPosition]).

Definition exportChatToPDF (lib : PdfPlatform) (messages : list ChatMessage)
    : list PdfCall :=
  let yPosition := margin in
  (* Add title *)
  let calls := [setFontSize 20; text "FloatChat - Ocean Data Analysis" margin yPosition] in
  let yPosition := yPosition + 20 in
  (* Add timestamp *)
  let calls := calls ++ [setFontSize 10;
                         text ("Generated: " ++ localeNow lib) margin yPosition] in
  let yPosition := yPosition + 20 in
  (* Add messages *)
  let calls := calls ++ [setFontSize 12] in
  let (_, calls) := fold_left (drawMessage lib) messages (yPosition, calls) in
  calls ++ [save "floatchat-conversation.pdf"].

(** ** [authService] and the provider of [AuthContext]

    The state of the service is its [token] field and the browser's
    [localStorage].  A call that rejects is an outcome [Thrown].  The
    response to a login is taken to have its declared type
    [AuthResponse]. *)

Module AuthService.

Definition API_BASE_URL : string := "http://localhost:8000/api/auth".

Record LoginCredentials : Type := {
  username : string;   (* email *)
  password : string
}.

Record RegisterData : Type := {
  reg_email : string;
  reg_name : string;
  reg_password : string
}.

Record AuthResponse : Type := {
  access_token : string;
  token_type : string
}.

Inductive Outcome (A : Type) : Type :=
| Returned (a : A)
| Thrown (error : Value).

Arguments Returned {A} a.
Arguments Thrown {A} error.

(** The login route of a server that keeps to [AuthResponse]: it answers
    with an [access_token] string or the request fails.  What the service
    does with an answer of another shape is not modelled. *)
Record Server : Type := {
  (* outcome of axios.post(url, formData, config) on the login route *)
  post_login : string -> Value -> Value -> Outcome AuthResponse
}.

Definition Storage : Type := string -> option string.

Definition getItem (key : string) (storage : Storage) : option string := storage key.

Definition setItem (key value : string) (storage : Storage) : Storage :=
  fun k => if String.eqb k key then Some value else storage k.

Definition removeItem (key : string) (storage : Storage) : Storage :=
  fun k => if String.eqb k key then None else storage k.

Record Session : Type := {
  token : option string;      (* this.token: string | null *)
  localStorage : Storage
}.

(** [new AuthService()] in a browser whose storage is [storage]. *)
Definition constructor (storage : Storage) : Session :=
  {| token := getItem "access_token" storage; localStorage := storage |}.

Definition setToken (t : string) (s : Session) : Session :=
  {| token := Some t; localStorage := setItem "access_token" t (localStorage s) |}.

Definition logout (s : Session) : Session :=
  {| token := None; localStorage := removeItem "access_token" (localStorage s) |}.

Definition getToken (s : Session) : option string := token s.


(** [`Bearer ${this.token}`]; null is written "null". *)
Definition bearer (s : Session) : string :=
  ("Bearer " ++ match token s with Some t => t | None => "null" end)%string.

Definition getAuthHeaders (s : Session) : Value :=
  Obj [("Authorization", Str (bearer s))].

(** [new FormData()] with its [append]ed fields. *)
Definition formData (fields : list (string * string)) : Value :=
  Obj [("FormData", Obj (map (fun kv => (fst kv, Str (snd kv))) fields))].

Definition login (server : Server) (credentials : LoginCredentials) (s : Session)
    : Outcome AuthResponse * Session :=
  match
    post_login server (API_BASE_URL ++ "/login")
      (formData [("username", username credentials); ("password", password credentials)])
      (Obj [("headers", Obj [("Content-Type", Str "application/x-www-form-urlencoded")])])
  with
  | Returned authData => (Returned authData, setToken (access_token authData) s)
  | Thrown error => (Thrown error, s)
  end.

Definition register (p : Platform) (userData : RegisterData) (s : Session)
    : Outcome Value * Session :=
  match
    axios_post p (API_BASE_URL ++ "/register")
      (Obj [("email", Str (reg_email userData)); ("name", Str (reg_name userData));
            ("password", Str (reg_password userData))])
      Undefined
  with
  | Fulfilled response => (Returned (dataOf response), s)
  | Rejected error => (Thrown error, s)
  end.

Definition getCurrentUser (p : Platform) (s : Session) : Outcome Value * Session :=
  match
    axios_get p (API_BASE_URL ++ "/me")
      (Obj [("headers", Obj [("Authorization", Str (bearer s))])])
  with
  | Fulfilled response => (Returned (dataOf response), s)
  | Rejected error => (Thrown error, s)
  end.

Definition verifyToken (p : Platform) (s : Session) : bool * Session :=
  match
    axios_get p (API_BASE_URL ++ "/verify-token")
      (Obj [("headers", Obj [("Authorization", Str (bearer s))])])
  with
  | Fulfilled _ => (true, s)
  | Rejected _ => (false, s)
  end.

End AuthService.

Module AuthContext.

Import AuthService.

(** The state of the provider: [user], [loading] and the one service. *)
Record State : Type := {
  user : option Value;     (* User | null *)
  loading : bool;
  service : Session
}.

(** The provider when it is first rendered. *)
Definition initialState (storage : Storage) : State :=
  {| user := None; loading := true; service := constructor storage |}.

Definition setUser (u : option Value) (st : State) : State :=
  {| user := u; loading := loading st; service := service st |}.


Definition withService (s : Session) (st : State) : State :=
  {| user := user st; loading := loading st; service := s |}.


Definition login (server : Server) (p : Platform) (credentials : LoginCredentials)
    (st : State) : Outcome unit * State :=
  match AuthService.login server credentials (service st) with
  | (Thrown error, s) => (Thrown error, withService s st)
  | (Returned _, s) =>
      match getCurrentUser p s with
      | (Returned userData, s) => (Returned tt, setUser (Some userData) (withService s st))
      | (Thrown error, s) => (Thrown error, withService s st)
      end
  end.

Definition logout (st : State) : State :=
  setUser None (withService (AuthService.logout (service st)) st).

End AuthContext.

(** ** Vocabulary of the properties *)

(** The [message] of a response. *)
Definition messageOf (r : Value) : option string := asStr (get "message" r).

(** The state before any call. *)
Definition initial : World := {| drawn := 0; console := [] |}.

(** The state after [n] more draws. *)
Definition advance (n : nat) (w : World) : World :=
  {| drawn := drawn w + n; console := console w |}.

(** The [len] synthetic temperatures made from the draws numbered
    [k], [k+1], ..., [k+len-1]. *)
Definition temperaturesFrom (p : Platform) (k len : nat) : list Q :=
  map (fun i => jitter (Math_random p i)) (seq k len).

(** The statistics block of the generic temperature payload. *)
Definition seriesStatistics : Value :=
  Obj [("mean", Num 18.7); ("std", Num 2.3); ("min", Num 15.2); ("max", Num 22.1);
       ("valid_measurements", Num 0.96); ("active_floats", Num 47)].

(** The four branches under the test for "temperature". *)
Definition temperatureIntents : list Intent :=
  [TemperatureAnomaly; TemperatureDepthProfile; TemperatureTrend; TemperatureGeneric].

(** A platform for examples: the network is down, the clock stands still
    and [Math.random] returns the given sequence. *)
Definition offline (draws : nat -> Q) : Platform :=
  {| Math_random := draws;
     isoDate := fun _ => "2024-02-01"%string;
     localeDate := fun _ => "2/1/2024"%string;
     nowISO := "2024-02-01T12:00:00.000Z"%string;
     VITE_API_URL := None;
     axios_post := fun _ _ _ => Rejected (Str "Network Error");
     axios_get := fun _ _ => Rejected (Str "Network Error") |}.

(** Draws 0, 1/4, 2/4, 3/4, 0, ... *)
Definition quarters (k : nat) : Q := Z.of_nat (k mod 4) # 4.

(** Strictly decreasing and strictly increasing sequences of numbers. *)
Definition decreasing (l : list Q) : Prop := StronglySorted (fun a b => b < a) l.

Definition increasing (l : list Q) : Prop := StronglySorted (fun a b => a < b) l.






(** Greatest and least element of a list of numbers. *)
Fixpoint maximum (l : list Q) : option Q :=
  match l with
  | [] => None
  | a :: rest =>
      match maximum rest with
      | Some m => Some (if Qle_bool a m then m else a)
      | None => Some a
      end
  end.

Fixpoint minimum (l : list Q) : option Q :=
  match l with
  | [] => None
  | a :: rest =>
      match minimum rest with
      | Some m => Some (if Qle_bool m a then m else a)
      | None => Some a
      end
  end.

(** ** Vocabulary of the further properties *)

(** [k] occurs in [s]. *)
Definition occurs (k s : string) : Prop :=
  exists pre post, s = (pre ++ k ++ post)%string.

(** The keywords tested at the top level of the conditional. *)
Definition topKeywords : list string :=
  ["temperature"; "salinity"; "current"; "velocity"; "atlantic"; "pacific"]%string.

(** Draws of [Math.random] made in the branch of an intent. *)
Definition drawsOf (intent : Intent) : nat :=
  match intent with
  | TemperatureGeneric => 60
  | _ => 0
  end.

(** The strings of an array of strings; [None] if an element is not one. *)
Fixpoint strings (items : list Value) : option (list string) :=
  match items with
  | [] => Some []
  | Str s :: rest =>
      match strings rest with
      | Some l => Some (s :: l)
      | None => None
      end
  | _ :: _ => None
  end.

(** The [suggestions] of a response. *)
Definition suggestionsOf (r : Value) : list string :=
  match get "suggestions" r with
  | Some (Arr items) =>
      match strings items with
      | Some l => l
      | None => []
      end
  | _ => []
  end.

(** The intents met when a chat starts at the default response and goes on
    by suggestions only. *)
Definition browsing : list Intent :=
  [Default; TemperatureTrend; TemperatureGeneric; TemperatureDepthProfile; Salinity].

Definition isStr (v : option Value) : bool :=
  match v with
  | Some (Str _) => true
  | _ => false
  end.

Definition arrLength (v : option Value) : option nat :=
  match v with
  | Some (Arr items) => Some (List.length items)
  | _ => None
  end.

(** A series a chart can draw: [x] and [y] are arrays of one length, not
    empty, [y] holds numbers, [type] and [name] are strings. *)
Definition wfTrace (t : Value) : bool :=
  match arrLength (get "x" t), asNums (get "y" t) with
  | Some n, Some ys =>
      (n =? List.length ys)%nat && negb (n =? 0)%nat
      && isStr (get "type" t) && isStr (get "name" t)
  | _, _ => false
  end.

(** What [PlotlyChart] hands to the chart: a non-empty [data] array of
    series and a [layout] with a title and two axis titles. *)
Definition wfPlot (d : Value) : bool :=
  match get "data" d with
  | Some (Arr traces) =>
      negb (List.length traces =? 0)%nat && forallb wfTrace traces
      && isStr (path [Key "layout"; Key "title"] d)
      && isStr (path [Key "layout"; Key "xaxis"; Key "title"] d)
      && isStr (path [Key "layout"; Key "yaxis"; Key "title"] d)
  | _ => false
  end.

(** What [MapVisualization] reads of a marker: a position on the globe, a
    title, a description and a [data] object of strings. *)
Definition wfMarker (m : Value) : bool :=
  match asNum (get "lat" m), asNum (get "lon" m), get "data" m with
  | Some lat, Some lon, Some (Obj props) =>
      Qle_bool (-90) lat && Qle_bool lat 90
      && Qle_bool (-180) lon && Qle_bool lon 180
      && isStr (get "title" m) && isStr (get "description" m)
      && forallb (fun kv => isStr (Some (snd kv))) props
  | _, _, _ => false
  end.

Definition wfMap (d : Value) : bool :=
  match get "markers" d with
  | Some (Arr markers) =>
      negb (List.length markers =? 0)%nat && forallb wfMarker markers
  | _ => false
  end.

(** A visualization the chat view can show: a plot for [PlotlyChart] or a
    map for [MapVisualization]. *)
Definition wfVisualization (v : Value) : bool :=
  match get "type" v, get "data" v with
  | Some (Str kind), Some d =>
      if String.eqb kind "plot" then wfPlot d
      else if String.eqb kind "map" then wfMap d
      else false
  | _, _ => false
  end.

(** The suggestions under the greeting that opens a chat ([ChatInterface],
    initial [messages]). *)
Definition greetingSuggestions : list string :=
  ["Show North Atlantic temperature trends";
   "Analyze Pacific Ocean salinity data";
   "Display global temperature anomalies";
   "Compare Mediterranean vs Atlantic data"]%string.

(** The suggestions under the error message of [handleSendMessage]. *)
Definition errorSuggestions : list string :=
  ["Try a simpler query";
   "Check your connection";
   "Ask about temperature data";
   "Request help with ocean analysis"]%string.

(** The request body and configuration of [sendMessage]. *)
Definition chatBody (p : Platform) (message : string) : Value :=
  Obj [("message", Str message); ("timestamp", Str (nowISO p))].

Definition chatConfig : Value :=
  Obj [("timeout", Num 30000);
       ("headers", Obj [("Content-Type", Str "application/json")])].

(** The lines a message is drawn as. *)
Definition messageLines (lib : PdfPlatform) (message : ChatMessage) : list string :=
  splitTextToSize lib (messageText message) (pageWidth lib - 2 * margin).

(** The lines of the messages drawn by a sequence of calls, and the heights
    at which they start. *)
Fixpoint linesOf (calls : list PdfCall) : list (list string) :=
  match calls with
  | [] => []
  | textLines lines _ _ :: rest => lines :: linesOf rest
  | _ :: rest => linesOf rest
  end.

Fixpoint startsOf (calls : list PdfCall) : list (Q * Q) :=
  match calls with
  | [] => []
  | textLines _ x y :: rest => (x, y) :: startsOf rest
  | _ :: rest => startsOf rest
  end.

(** The number of pages of the document: one, and one more for each
    [addPage]. *)
Fixpoint pagesOf (calls : list PdfCall) : nat :=
  match calls with
  | [] => 1
  | addPage :: rest => S (pagesOf rest)
  | _ :: rest => pagesOf rest
  end.

(** The calls a client can make on the auth service, and their effect on
    the session. *)
Inductive ServiceCall : Type :=
| CallLogin (server : AuthService.Server) (credentials : AuthService.LoginCredentials)
| CallRegister (p : Platform) (userData : AuthService.RegisterData)
| CallGetCurrentUser (p : Platform)
| CallVerifyToken (p : Platform)
| CallLogout
| CallSetToken (t : string).

Definition afterCall (s : AuthService.Session) (c : ServiceCall) : AuthService.Session :=
  match c with
  | CallLogin server credentials => snd (AuthService.login server credentials s)
  | CallRegister p userData => snd (AuthService.register p userData s)
  | CallGetCurrentUser p => snd (AuthService.getCurrentUser p s)
  | CallVerifyToken p => snd (AuthService.verifyToken p s)
  | CallLogout => AuthService.logout s
  | CallSetToken t => AuthService.setToken t s
  end.

(** A server and a platform for examples: every login is accepted with the
    given token, every other request is rejected. *)
Definition acceptingServer (t : string) : AuthService.Server :=
  {| AuthService.post_login := fun _ _ _ =>
       AuthService.Returned
         {| AuthService.access_token := t; AuthService.token_type := "bearer" |} |}.

Definition emptyStorage : AuthService.Storage := fun _ => None.

(** Comparison of two numbers given by their fractions. *)
Ltac qcompare := unfold Qle, Qlt; cbn [Qnum Qden]; lia.

(** Sortedness of a list of literals, element by element. *)
Ltac sorted_literal :=
  repeat (apply SSorted_cons || apply SSorted_nil || apply Forall_cons
          || apply Forall_nil);
  qcompare.

(** Two literals that differ in the case of ASCII letters only. *)
Ltac recased_literal :=
  repeat first [ apply recased_end | apply recased_keep
               | apply recased_lower | apply recased_upper ].

(** Comparisons of numbers written out, by computation. *)
Ltac qdecide :=
  first [ apply Qle_bool_iff; vm_compute; reflexivity
        | apply Qeq_bool_iff; vm_compute; reflexivity
        | apply Qlt_alt; vm_compute; reflexivity ].

(** * Properties *)

(** ** String search and case *)

Section StringFacts.

Local Open Scope string_scope.

Lemma startsWith_spec (s search : string) :
  startsWith s search = true <-> exists post, s = search ++ post.
Proof.
  revert s; induction search as [|c search IH]; intros s; simpl.
  - split; [intros _; now exists s | reflexivity].
  - destruct s as [|d s].
    + split; [discriminate | intros [post H]; discriminate H].
    + rewrite andb_true_iff, Ascii.eqb_eq, IH. split.
      * intros [-> [post ->]]. now exists post.
      * intros [post H]. injection H as -> ->. split; [reflexivity | now exists post].
Qed.

Lemma includes_spec (s search : string) :
  includes s search = true <-> exists pre post, s = pre ++ search ++ post.
Proof.
  induction s as [|d s IH]; simpl; rewrite orb_true_iff, startsWith_spec.
  - split.
    + intros [[post H] | H]; [now exists "", post | discriminate].
    + intros [[|c pre] [post H]]; [left; now exists post | discriminate].
  - rewrite IH. split.
    + intros [[post H] | [pre [post H]]].
      * now exists "", post.
      * exists (String d pre), post. simpl. now rewrite H.
    + intros [[|c pre] [post H]].
      * left. now exists post.
      * right. injection H as _ H. now exists pre, post.
Qed.

Lemma lowerUnit_idem (c : ascii) : lowerUnit (lowerUnit c) = lowerUnit c.
Proof. destruct c as [[] [] [] [] [] [] [] []]; reflexivity. Qed.

Lemma lowerUnit_upperUnit (c : ascii) : lowerUnit (upperUnit c) = lowerUnit c.
Proof. destruct c as [[] [] [] [] [] [] [] []]; reflexivity. Qed.

Lemma recased_toLowerCase (s t : string) :
  recased s t -> toLowerCase s = toLowerCase t.
Proof.
  induction 1 as [| c s t _ IH | c s t _ IH | c s t _ IH]; simpl;
    rewrite ?lowerUnit_idem, ?lowerUnit_upperUnit, ?IH; reflexivity.
Qed.

Lemma recased_refl (s : string) : recased s s.
Proof. induction s; constructor; assumption. Qed.

Lemma toLowerCase_empty : toLowerCase "" = "".
Proof. reflexivity. Qed.

Lemma toLowerCase_idem (s : string) : toLowerCase (toLowerCase s) = toLowerCase s.
Proof. induction s; simpl; [|rewrite lowerUnit_idem, IHs]; reflexivity. Qed.

End StringFacts.

(** ** The conditional of [generateMockResponse] *)

Lemma generateMockResponse_respond (p : Platform) (message : string) :
  generateMockResponse p message = respond p (resolve (normalize message)).
Proof.
  unfold generateMockResponse, resolve, normalize.
  repeat match goal with
         | |- context [if ?b then _ else _] => destruct b
         end; unfold respond; reflexivity.
Qed.

(** Distinct branches answer with distinct messages, so the branch taken
    can be read off the response. *)
Lemma respond_message_inj (p : Platform) (w w' : World) (i j : Intent) :
  messageOf (fst (respond p i w)) = messageOf (fst (respond p j w')) -> i = j.
Proof.
  destruct i, j; intros H; try reflexivity; exfalso;
    vm_compute in H; discriminate H.
Qed.

Example resolve_empty : resolve (normalize "") = Default.
Proof. reflexivity. Qed.

Example resolve_substring : resolve (normalize "decurrent") = CurrentVelocity.
Proof. reflexivity. Qed.

Example resolve_region_after_temperature :
  resolve (normalize "Pacific temperature trend") = TemperatureTrend.
Proof. reflexivity. Qed.

(** The response to a message is the one of the intent it resolves to. *)
Lemma classify_by_intent (p : Platform) (s : string) (i : Intent) :
  resolve (normalize s) = i -> classifyAndRespond p s = respond p i.
Proof.
  intros <-. unfold classifyAndRespond. apply generateMockResponse_respond.
Qed.

(** ** Running the generators *)

Lemma from_index_ret {A} (g : nat -> A) (i len : nat) (w : World) :
  from_index (fun i => ret (g i)) i len w = (map g (seq i len), w).
Proof.
  revert i; induction len as [|len IH]; intros i; [reflexivity|].
  cbn [from_index seq map]. unfold bind, ret at 1. rewrite IH. reflexivity.
Qed.

Lemma from_index_draw (p : Platform) (i len : nat) (w : World) :
  from_index (fun _ => drawTemperature p) i len w
  = (map Num (temperaturesFrom p (drawn w) len), advance len w).
Proof.
  revert i w; induction len as [|len IH]; intros i w.
  - destruct w as [d c]. unfold advance. simpl. now rewrite Nat.add_0_r.
  - cbn [from_index]. unfold bind, drawTemperature, bind, random, ret at 1.
    rewrite IH. unfold ret, advance, temperaturesFrom. cbn [drawn console seq map].
    now rewrite Nat.add_succ_r.
Qed.

Lemma generateTemperatureTimeSeriesData_run (p : Platform) (w : World) :
  generateTemperatureTimeSeriesData p w
  = (Obj [("dates", Arr (map (fun i => Str (isoDate p (29 - i))) (seq 0 30)));
          ("temperatures", Arr (map Num (temperaturesFrom p (drawn w) 30)));
          ("statistics", seriesStatistics)],
     advance 30 w).
Proof.
  unfold generateTemperatureTimeSeriesData, Array_from, bind.
  rewrite from_index_ret, from_index_draw. reflexivity.
Qed.

Lemma generateTemperatureTimeSeriesVisualization_run (p : Platform) (w : World) :
  exists x layout,
    generateTemperatureTimeSeriesVisualization p w
    = (Obj [("data", Arr [
              Obj [("x", x);
                   ("y", Arr (map Num (temperaturesFrom p (drawn w) 30)));
                   ("type", Str "scatter");
                   ("mode", Str "lines+markers");
                   ("name", Str "Temperature");
                   ("line", Obj [("color", Str "#0891b2"); ("width", Num 3)])]]);
            ("layout", layout)],
       advance 30 w).
Proof.
  unfold generateTemperatureTimeSeriesVisualization, Array_from, bind.
  rewrite from_index_ret, from_index_draw. eexists _, _. reflexivity.
Qed.

Lemma numbers_map_Num (l : list Q) : numbers (map Num l) = Some l.
Proof. induction l as [|q l IH]; simpl; [|rewrite IH]; reflexivity. Qed.

Lemma temperaturesFrom_length (p : Platform) (k len : nat) :
  List.length (temperaturesFrom p k len) = len.
Proof. unfold temperaturesFrom. now rewrite length_map, length_seq. Qed.

(** The generic temperature branch: the data payload uses the next thirty
    draws, the plot the thirty after them. *)
Lemma temperatureGenericResponse_run (p : Platform) (w : World) :
  exists dates x layout message suggestions,
    temperatureGenericResponse p w
    = (Obj [("message", Str message);
            ("data", Obj [("dates", dates);
                          ("temperatures", Arr (map Num (temperaturesFrom p (drawn w) 30)));
                          ("statistics", seriesStatistics)]);
            ("visualizations", Arr [
               plot (Obj [("data", Arr [
                  Obj [("x", x);
                       ("y", Arr (map Num (temperaturesFrom p (drawn w + 30) 30)));
                       ("type", Str "scatter");
                       ("mode", Str "lines+markers");
                       ("name", Str "Temperature");
                       ("line", Obj [("color", Str "#0891b2"); ("width", Num 3)])]]);
                  ("layout", layout)]);
               map_ generateTemperatureMapData]);
            ("suggestions", strs suggestions)],
       advance 60 w)
    /\ message <> ""%string /\ List.length suggestions = 4%nat.
Proof.
  unfold temperatureGenericResponse, bind.
  rewrite generateTemperatureTimeSeriesData_run.
  destruct (generateTemperatureTimeSeriesVisualization_run p (advance 30 w))
    as (x & layout & ->).
  eexists _, x, layout, _, _. split; [|split].
  - unfold ret, response. f_equal. unfold advance; simpl. f_equal. lia.
  - discriminate.
  - reflexivity.
Qed.

(** ** The claims *)

Lemma resolve_temperature (text : string) :
  includes text "temperature" = true -> In (resolve text) temperatureIntents.
Proof.
  intros H. unfold resolve, temperatureIntents. rewrite H.
  destruct (includes text "anomaly" || includes text "unusual"); [now left|].
  destruct (includes text "depth" || includes text "profile"); [now right; left|].
  destruct (includes text "trend"); [now right; right; left|].
  now right; right; right; left.
Qed.

(** C1. Priority of the temperature rule: a message whose lower-cased form
    contains both "temperature" and "salinity" is answered by one of the
    four temperature branches and never by the salinity branch, since the
    test for "temperature" comes first and the first test that holds wins. *)
Theorem temperature_before_salinity (s : string) :
  (exists pre post, toLowerCase s = (pre ++ "temperature" ++ post)%string) ->
  (exists pre post, toLowerCase s = (pre ++ "salinity" ++ post)%string) ->
  In (resolve (normalize s)) temperatureIntents
  /\ resolve (normalize s) <> Salinity
  /\ forall p, generateMockResponse p s = respond p (resolve (normalize s)).
Proof.
  intros Ht _. apply includes_spec in Ht.
  pose proof (resolve_temperature _ Ht) as Hin. fold (normalize s) in Hin.
  repeat split.
  - exact Hin.
  - intros Heq. rewrite Heq in Hin. unfold temperatureIntents in Hin. simpl in Hin.
    intuition discriminate.
  - intros p. apply generateMockResponse_respond.
Qed.

Lemma temperature_before_salinity_witness :
  In (resolve (normalize "Compare TEMPERATURE with Salinity")) temperatureIntents
  /\ resolve (normalize "Compare TEMPERATURE with Salinity") <> Salinity
  /\ forall p, generateMockResponse p "Compare TEMPERATURE with Salinity"
               = respond p (resolve (normalize "Compare TEMPERATURE with Salinity")).
Proof.
  apply (temperature_before_salinity "Compare TEMPERATURE with Salinity").
  - exists "compare "%string, " with salinity"%string. reflexivity.
  - exists "compare temperature with "%string, ""%string. reflexivity.
Defined.

(** C2. "Show temperature anomaly" is answered with a data payload whose
    [anomalies] list has exactly three entries, with anomaly values 2.1,
    -1.8, 3.2 in that order, and whose [statistics.confidence] is 0.95;
    the response is the same whatever the random source, the clock, the
    network and the state are, and the call draws no random number. *)
Theorem anomaly_response_fixed (p : Platform) (w : World) :
  let r := fst (classifyAndRespond p "Show temperature anomaly" w) in
  (exists entries,
      path [Key "data"; Key "anomalies"] r = Some (Arr entries)
      /\ List.length entries = 3%nat
      /\ map (fun e => asNum (get "anomaly" e)) entries
         = [Some 2.1; Some (-1.8); Some 3.2])
  /\ path [Key "data"; Key "statistics"; Key "confidence"] r = Some (Num 0.95)
  /\ (forall p' w', fst (classifyAndRespond p' "Show temperature anomaly" w') = r)
  /\ snd (classifyAndRespond p "Show temperature anomaly" w) = w.
Proof.
  cbv zeta.
  assert (E : forall q, classifyAndRespond q "Show temperature anomaly"
                        = temperatureAnomalyResponse)
    by (intros q; now rewrite (classify_by_intent q _ TemperatureAnomaly)).
  rewrite E. unfold temperatureAnomalyResponse, ret. cbn [fst snd].
  split; [|split; [|split]].
  - eexists. split; [reflexivity|]. split; reflexivity.
  - reflexivity.
  - intros p' w'. now rewrite E.
  - reflexivity.
Qed.

(** C3. For every input string whatsoever the orchestrator returns a
    response document: its [message] is a non-empty string, it has exactly
    four [suggestions] and at least one visualization. *)
Theorem response_well_formed (p : Platform) (w : World) (s : string) :
  exists message suggestions visualizations,
    let r := fst (classifyAndRespond p s w) in
    get "message" r = Some (Str message)
    /\ message <> ""%string
    /\ get "suggestions" r = Some (strs suggestions)
    /\ List.length suggestions = 4%nat
    /\ get "visualizations" r = Some (Arr visualizations)
    /\ (1 <= List.length visualizations)%nat.
Proof.
  unfold classifyAndRespond. rewrite generateMockResponse_respond.
  destruct (resolve (normalize s)); unfold respond.
  4: { destruct (temperatureGenericResponse_run p w)
         as (dates & x & layout & message & suggestions & -> & Hm & Hs).
       eexists message, suggestions, _. cbv zeta. cbn [fst].
       repeat split; try reflexivity; try assumption. simpl. lia. }
  all: eexists _, _, _; cbv zeta;
    repeat split; try reflexivity; try discriminate; simpl; lia.
Qed.

(** ** Rounding to binary64 *)

Section B64Facts.
Import B64.

Lemma pow2_pos (e : Z) : 0 < 2 ^ e.
Proof. apply Qpower_0_lt. reflexivity. Qed.

Lemma pow2_succ (e : Z) : 2 ^ (e + 1) == 2 * 2 ^ e.
Proof. rewrite Qpower_plus by discriminate. rewrite Qmult_comm. reflexivity. Qed.

Lemma pow2_split (a b : Z) : 2 ^ (a - b) * 2 ^ b == 2 ^ a.
Proof.
  rewrite <- Qpower_plus by discriminate. now replace (a - b + b)%Z with a by ring.
Qed.

Lemma pow2_le (a b : Z) : (a <= b)%Z -> 2 ^ a <= 2 ^ b.
Proof. intros H. apply Qpower_le_compat_l; [exact H | discriminate]. Qed.

Lemma pow2_Z (n : Z) : (0 <= n)%Z -> inject_Z (2 ^ n) == 2 ^ n.
Proof. intros H. now rewrite Zpower_Qpower. Qed.

Lemma log2_bounds (n : Z) :
  (0 < n)%Z -> 2 ^ Z.log2 n <= inject_Z n /\ inject_Z n < 2 ^ (Z.log2 n + 1).
Proof.
  intros H. destruct (Z.log2_spec n H) as [L U].
  pose proof (Z.log2_nonneg n) as P. split.
  - rewrite <- pow2_Z by exact P. now rewrite <- Zle_Qle.
  - rewrite <- pow2_Z by lia. rewrite <- Zlt_Qlt. now rewrite <- Z.add_1_r in U.
Qed.

Lemma ilog2_spec (x : Q) :
  0 < x -> 2 ^ ilog2 x <= x /\ x < 2 ^ (ilog2 x + 1).
Proof.
  intros Hx. unfold ilog2.
  set (a := Z.log2 (Qnum x)). set (b := Z.log2 (Z.pos (Qden x))).
  assert (Hn : (0 < Qnum x)%Z).
  { destruct x as [n d]. unfold Qlt in Hx. simpl in *. lia. }
  destruct (log2_bounds _ Hn) as [Ln Un]. fold a in Ln, Un.
  destruct (log2_bounds (Z.pos (Qden x)) ltac:(lia)) as [Ld Ud]. fold b in Ld, Ud.
  assert (E : x * inject_Z (Z.pos (Qden x)) == inject_Z (Qnum x)).
  { destruct x as [n d]. unfold Qeq, Qmult, inject_Z. simpl. lia. }
  pose proof (pow2_pos b) as Pb. pose proof (pow2_pos (a - b)) as Pab.
  pose proof (pow2_split a b) as S0.
  pose proof (pow2_succ (a - b)) as S1. pose proof (pow2_succ a) as S2.
  pose proof (pow2_succ b) as S3. pose proof (pow2_succ (a - b - 1)) as S4.
  replace (a - b - 1 + 1)%Z with (a - b)%Z in S4 by ring.
  pose proof (pow2_pos (a - b - 1)) as Pab1.
  assert (U : x < 2 ^ (a - b + 1)).
  { rewrite S1. revert Hx E Un Ld Pb Pab S0 S2.
    generalize (2 ^ (a - b)) (2 ^ b) (2 ^ a) (2 ^ (a + 1))
      (inject_Z (Qnum x)) (inject_Z (Z.pos (Qden x))).
    intros T B A A1 N D. intros. nra. }
  assert (L : 2 ^ (a - b - 1) <= x).
  { revert Hx E Ln Ud Pb Pab Pab1 S0 S3 S4.
    generalize (2 ^ (a - b)) (2 ^ (a - b - 1)) (2 ^ b) (2 ^ (b + 1)) (2 ^ a)
      (inject_Z (Qnum x)) (inject_Z (Z.pos (Qden x))).
    intros T T1 B B1 A N D. intros. nra. }
  destruct (Qle_bool (2 ^ (a - b)) x) eqn:C.
  - apply Qle_bool_iff in C. split; assumption.
  - replace (a - b - 1 + 1)%Z with (a - b)%Z by ring. split; [exact L|].
    apply Qnot_le_lt. intros H. apply Qle_bool_iff in H. congruence.
Qed.


Lemma rne_between (x : Q) : (Qfloor x <= rne x <= Qfloor x + 1)%Z.
Proof.
  unfold rne. destruct (Qcompare _ _); [destruct (Z.even _)| |]; lia.
Qed.

Lemma rne_Z (k : Z) : rne (inject_Z k) = k.
Proof.
  unfold rne. rewrite Qfloor_Z.
  destruct (Qcompare_spec (inject_Z k - inject_Z k) (1 # 2)) as [H|H|H].
  - exfalso. lra.
  - reflexivity.
  - exfalso. lra.
Qed.

Lemma rne_mono (x y : Q) : x <= y -> (rne x <= rne y)%Z.
Proof.
  intros H. pose proof (Qfloor_resp_le _ _ H) as F.
  pose proof (rne_between x) as Bx. pose proof (rne_between y) as By.
  destruct (Z.eq_dec (Qfloor x) (Qfloor y)) as [E|E]; [|lia].
  unfold rne in *. rewrite <- E in *. clear E F Bx By.
  destruct (Qcompare_spec (x - inject_Z (Qfloor x)) (1 # 2)) as [Hx|Hx|Hx];
    destruct (Qcompare_spec (y - inject_Z (Qfloor x)) (1 # 2)) as [Hy|Hy|Hy];
    try destruct (Z.even (Qfloor x)); try lia; exfalso; lra.
Qed.

Lemma roundPos_nonneg (x : Q) : 0 < x -> 0 <= roundPos x.
Proof.
  intros Hx. unfold roundPos, ulp. set (u := 2 ^ _).
  assert (Hu : 0 < u) by apply pow2_pos.
  assert (H : 0 <= x / u) by (apply Qle_shift_div_l; [exact Hu | lra]).
  apply rne_mono in H. change 0 with (inject_Z 0) in H at 1. rewrite rne_Z in H.
  rewrite Zle_Qle in H. change (inject_Z 0) with 0 in H. nra.
Qed.

Lemma roundPos_upper (x : Q) :
  0 < x -> roundPos x <= 2 ^ (Z.max (ilog2 x) (-1022) + 1).
Proof.
  intros Hx. destruct (ilog2_spec x Hx) as [_ U].
  unfold roundPos, ulp. set (e := Z.max (ilog2 x) (-1022)). set (u := 2 ^ (e - 52)).
  assert (Hu : 0 < u) by apply pow2_pos.
  assert (S : inject_Z (2 ^ 53) * u == 2 ^ (e + 1)).
  { rewrite pow2_Z by lia. unfold u. rewrite <- Qpower_plus by discriminate.
    now replace (53 + (e - 52))%Z with (e + 1)%Z by ring. }
  assert (M : 2 ^ (ilog2 x + 1) <= 2 ^ (e + 1)) by (apply pow2_le; lia).
  assert (H : x / u <= inject_Z (2 ^ 53)).
  { apply Qle_shift_div_r; [exact Hu|]. rewrite S. lra. }
  apply rne_mono in H. rewrite rne_Z in H. rewrite Zle_Qle in H.
  rewrite <- S. nra.
Qed.

Lemma roundPos_lower (x : Q) :
  0 < x -> (-1022 <= ilog2 x)%Z -> 2 ^ ilog2 x <= roundPos x.
Proof.
  intros Hx He. destruct (ilog2_spec x Hx) as [L _].
  unfold roundPos, ulp. rewrite Z.max_l by exact He.
  set (e := ilog2 x) in *. set (u := 2 ^ (e - 52)).
  assert (Hu : 0 < u) by apply pow2_pos.
  assert (S : inject_Z (2 ^ 52) * u == 2 ^ e).
  { rewrite pow2_Z by lia. unfold u. rewrite <- Qpower_plus by discriminate.
    now replace (52 + (e - 52))%Z with e by ring. }
  assert (H : inject_Z (2 ^ 52) <= x / u).
  { apply Qle_shift_div_l; [exact Hu|]. rewrite S. exact L. }
  apply rne_mono in H. rewrite rne_Z in H. rewrite Zle_Qle in H.
  rewrite <- S. nra.
Qed.

Lemma ilog2_mono (x y : Q) : 0 < x -> x <= y -> (ilog2 x <= ilog2 y)%Z.
Proof.
  intros Hx H. destruct (ilog2_spec x Hx) as [Lx _].
  destruct (ilog2_spec y ltac:(lra)) as [_ Uy].
  assert (S : 2 ^ ilog2 x < 2 ^ (ilog2 y + 1)) by lra.
  apply Qpower_lt_compat_l_inv in S; [lia | reflexivity].
Qed.

Lemma roundPos_mono (x y : Q) : 0 < x -> x <= y -> roundPos x <= roundPos y.
Proof.
  intros Hx H. assert (Hy : 0 < y) by lra.
  pose proof (ilog2_mono x y Hx H) as E.
  destruct (Z.eq_dec (Z.max (ilog2 x) (-1022)) (Z.max (ilog2 y) (-1022))) as [Q|Q].
  - unfold roundPos, ulp. rewrite <- Q. set (u := 2 ^ _).
    assert (Hu : 0 < u) by apply pow2_pos.
    assert (D : x / u <= y / u).
    { apply Qle_shift_div_l; [exact Hu|]. unfold Qdiv.
      rewrite <- Qmult_assoc, (Qmult_comm (/ u)), Qmult_inv_r, Qmult_1_r by lra.
      exact H. }
    apply rne_mono in D. rewrite Zle_Qle in D. nra.
  - assert (Ey : (-1022 <= ilog2 y)%Z) by lia.
    pose proof (roundPos_upper x Hx) as U. pose proof (roundPos_lower y Hy Ey) as L.
    assert (M : 2 ^ (Z.max (ilog2 x) (-1022) + 1) <= 2 ^ ilog2 y) by (apply pow2_le; lia).
    lra.
Qed.

Lemma round_mono (x y : Q) : x <= y -> round x <= round y.
Proof.
  intros H. unfold round.
  destruct (Qcompare_spec x 0) as [Hx|Hx|Hx];
    destruct (Qcompare_spec y 0) as [Hy|Hy|Hy]; try (exfalso; lra).
  - lra.
  - pose proof (roundPos_nonneg y Hy). lra.
  - pose proof (roundPos_nonneg (- x) ltac:(lra)). lra.
  - pose proof (roundPos_mono (- y) (- x) ltac:(lra) ltac:(lra)). lra.
  - pose proof (roundPos_nonneg (- x) ltac:(lra)).
    pose proof (roundPos_nonneg y Hy). lra.
  - apply roundPos_mono; assumption.
Qed.


(** Rounding keeps a number between two binary64 numbers between them. *)
Lemma round_between (lo hi x : Q) :
  round lo == lo -> round hi == hi -> lo <= x -> x <= hi ->
  lo <= round x /\ round x <= hi.
Proof.
  intros Elo Ehi L H. apply round_mono in L. apply round_mono in H. lra.
Qed.

Lemma jitter_bounds (r : Q) :
  0 <= r -> r < 1 ->
  (leb 16.4 (jitter r) = true /\ leb (jitter r) 21.0 = true)
  /\ (leb (-2.3) (mul (sub r 0.5) 4.6) = true /\ leb (mul (sub r 0.5) 4.6) 2.3 = true).
Proof.
  intros H0 H1. unfold jitter, add, mul, sub, leb.
  pose (h := 2589569785738035 # 1125899906842624).
  pose (m := 5263582064489267 # 281474976710656).
  assert (E05 : round 0.5 == 1 # 2) by qdecide.
  assert (E46 : round 4.6 == 2 * h) by qdecide.
  assert (E187 : round 18.7 == m) by qdecide.
  destruct (round_between 0 1 r ltac:(qdecide) ltac:(qdecide) H0 ltac:(lra)) as [R0 R1].
  set (r0 := round r) in *.
  destruct (round_between (-(1 # 2)) (1 # 2) (r0 - round 0.5)
              ltac:(qdecide) ltac:(qdecide) ltac:(lra) ltac:(lra)) as [A0 A1].
  set (a := round (r0 - round 0.5)) in *.
  destruct (round_between (-(1 # 2)) (1 # 2) a
              ltac:(qdecide) ltac:(qdecide) A0 A1) as [A2 A3].
  set (a1 := round a) in *.
  assert (P0 : - h <= a1 * round 4.6) by (rewrite E46; unfold h; lra).
  assert (P1 : a1 * round 4.6 <= h) by (rewrite E46; unfold h; lra).
  destruct (round_between (- h) h (a1 * round 4.6)
              ltac:(qdecide) ltac:(qdecide) P0 P1) as [B0 B1].
  set (b := round (a1 * round 4.6)) in *.
  destruct (round_between (- h) h b ltac:(qdecide) ltac:(qdecide) B0 B1) as [B2 B3].
  set (b1 := round b) in *.
  assert (T0 : round (m - h) <= round (round 18.7 + b1)) by (apply round_mono; lra).
  assert (T1 : round (round 18.7 + b1) <= round (m + h)) by (apply round_mono; lra).
  set (t := round (round 18.7 + b1)) in *.
  assert (T2 : round (round (m - h)) <= round t) by (apply round_mono; exact T0).
  assert (T3 : round t <= round (round (m + h))) by (apply round_mono; exact T1).
  assert (L164 : round 16.4 == round (round (m - h))) by qdecide.
  assert (L21 : round (round (m + h)) == round 21.0) by qdecide.
  assert (L23 : round 2.3 == h) by qdecide.
  assert (L23n : round (-2.3) == - h) by qdecide.
  repeat split; apply Qle_bool_iff; lra.
Qed.

End B64Facts.

(** The model against binary64 numbers written out in full. *)
Example jitter_at_0 : jitter 0 == 2308094809027379 # 140737488355328.
Proof. vm_compute. reflexivity. Qed.

Example jitter_at_three_quarters : jitter 0.75 == 5587278287706521 # 281474976710656.
Proof. vm_compute. reflexivity. Qed.

Example jitter_at_last_draw : jitter (1 - (1 # 9007199254740992)) == 21.
Proof. vm_compute. reflexivity. Qed.

Lemma quarters_range (k : nat) : 0 <= quarters k /\ quarters k < 1.
Proof.
  pose proof (Nat.mod_upper_bound k 4 ltac:(discriminate)) as H.
  unfold quarters. split; qcompare.
Qed.

(** C4. For the message "temperature" and any sequence of draws in [0, 1):
    the data payload has thirty temperatures, the i-th being
    18.7 + (draw - 0.5) * 4.6, in binary64 arithmetic, for the i-th draw of
    the call; each lies in [16.4, 21.0], the term added to 18.7 lying
    within 2.3 of zero; and the statistics block is the fixed one, whatever
    the draws. *)
Theorem generic_temperatures_bounded (p : Platform) (w : World) :
  (forall k, 0 <= Math_random p k /\ Math_random p k < 1) ->
  let r := fst (classifyAndRespond p "temperature" w) in
  exists temperatures,
    asNums (path [Key "data"; Key "temperatures"] r) = Some temperatures
    /\ temperatures
       = map (fun k => B64.add 18.7 (B64.mul (B64.sub (Math_random p k) 0.5) 4.6))
           (seq (drawn w) 30)
    /\ List.length temperatures = 30%nat
    /\ Forall (fun t => B64.leb 16.4 t = true /\ B64.leb t 21.0 = true) temperatures
    /\ Forall (fun k =>
                 B64.leb (-2.3) (B64.mul (B64.sub (Math_random p k) 0.5) 4.6) = true
                 /\ B64.leb (B64.mul (B64.sub (Math_random p k) 0.5) 4.6) 2.3 = true)
         (seq (drawn w) 30)
    /\ path [Key "data"; Key "statistics"] r
       = Some (Obj [("mean", Num 18.7); ("std", Num 2.3); ("min", Num 15.2);
                    ("max", Num 22.1); ("valid_measurements", Num 0.96);
                    ("active_floats", Num 47)]).
Proof.
  intros Hrange.
  rewrite (classify_by_intent p "temperature" TemperatureGeneric) by reflexivity.
  unfold respond.
  destruct (temperatureGenericResponse_run p w)
    as (dates & x & layout & message & suggestions & -> & _ & _).
  cbv zeta. cbn [fst]. exists (temperaturesFrom p (drawn w) 30).
  split; [|split; [|split; [|split; [|split]]]].
  - cbn [path get lookup String.eqb Ascii.eqb Bool.eqb asNums]. apply numbers_map_Num.
  - reflexivity.
  - apply temperaturesFrom_length.
  - unfold temperaturesFrom. apply Forall_map, Forall_forall. intros k _.
    destruct (Hrange k) as [H0 H1]. apply (jitter_bounds _ H0 H1).
  - apply Forall_forall. intros k _.
    destruct (Hrange k) as [H0 H1]. apply (jitter_bounds _ H0 H1).
  - reflexivity.
Qed.

Lemma generic_temperatures_bounded_witness :
  let r := fst (classifyAndRespond (offline quarters) "temperature" initial) in
  exists temperatures,
    asNums (path [Key "data"; Key "temperatures"] r) = Some temperatures
    /\ temperatures
       = map (fun k => B64.add 18.7 (B64.mul (B64.sub (quarters k) 0.5) 4.6)) (seq 0 30)
    /\ List.length temperatures = 30%nat
    /\ Forall (fun t => B64.leb 16.4 t = true /\ B64.leb t 21.0 = true) temperatures
    /\ Forall (fun k =>
                 B64.leb (-2.3) (B64.mul (B64.sub (quarters k) 0.5) 4.6) = true
                 /\ B64.leb (B64.mul (B64.sub (quarters k) 0.5) 4.6) 2.3 = true)
         (seq 0 30)
    /\ path [Key "data"; Key "statistics"] r
       = Some (Obj [("mean", Num 18.7); ("std", Num 2.3); ("min", Num 15.2);
                    ("max", Num 22.1); ("valid_measurements", Num 0.96);
                    ("active_floats", Num 47)]).
Proof.
  apply (generic_temperatures_bounded (offline quarters) initial).
  intros k. simpl. apply quarters_range.
Defined.

(** C5. "temperature depth profile" is answered with parallel [depths] and
    [temperatures] arrays of thirteen elements each, from depth 0 and
    temperature 22.1 to depth 2000 and temperature 4.0, the temperature
    falling at every step while the depth grows. *)
Theorem depth_profile_fixed (p : Platform) (w : World) :
  let r := fst (classifyAndRespond p "temperature depth profile" w) in
  exists depths temperatures,
    asNums (path [Key "data"; Key "depths"] r) = Some depths
    /\ asNums (path [Key "data"; Key "temperatures"] r) = Some temperatures
    /\ List.length depths = 13%nat
    /\ List.length temperatures = 13%nat
    /\ hd_error depths = Some 0
    /\ nth_error depths 12 = Some 2000
    /\ hd_error temperatures = Some 22.1
    /\ nth_error temperatures 12 = Some 4.0
    /\ increasing depths
    /\ decreasing temperatures
    /\ forall i j a b,
         (i <= j)%nat -> nth_error temperatures i = Some a ->
         nth_error temperatures j = Some b -> b <= a.
Proof.
  rewrite (classify_by_intent p _ TemperatureDepthProfile) by reflexivity.
  unfold respond. cbv zeta. unfold temperatureDepthProfileResponse, ret. cbn [fst].
  eexists _, _.
  split; [reflexivity|]. split; [reflexivity|].
  assert (D : decreasing [22.1; 21.8; 21.2; 19.5; 16.8; 13.2; 10.5; 8.1; 6.2; 5.1;
                          4.8; 4.2; 4.0]) by (unfold decreasing; sorted_literal).
  repeat (split; [reflexivity|]).
  split; [unfold increasing; sorted_literal|].
  split; [exact D|].
  intros i j a b Hij Hi Hj.
  destruct (Nat.eq_dec i j) as [->|Hne].
  - rewrite Hi in Hj. injection Hj as <-. apply Qle_refl.
  - apply Qlt_le_weak.
    assert (Hlt : (i < j)%nat) by lia. clear Hij Hne.
    revert i j Hlt Hi Hj. induction D as [|t l _ IH Hall]; intros i j Hlt Hi Hj.
    + destruct i; discriminate Hi.
    + destruct j as [|j]; [lia|]. destruct i as [|i]; simpl in Hi, Hj.
      * injection Hi as <-. rewrite Forall_forall in Hall.
        apply Hall. eapply nth_error_In; eassumption.
      * apply (IH i j); [lia | assumption | assumption].
Qed.





(** C8, as stated, fails outside ASCII: the upper-case form of the long s
    is "S", that of the dotless i is "I" and that of the ligature fi is
    "FI", and lower-casing does not bring them back.  So "ſalinity" gets
    the default answer and "SALINITY" the salinity answer, and
    "proﬁle temperature" gets the generic temperature answer and
    "PROFILE TEMPERATURE" the depth profile. *)
Lemma case_outside_ascii_changes_intent :
  recasedWide "ſalinity" "SALINITY"
  /\ resolve (normalize "ſalinity") = Default
  /\ resolve (normalize "SALINITY") = Salinity
  /\ recasedWide "salınıty" "SALINITY"
  /\ resolve (normalize "salınıty") = Default
  /\ recasedWide "proﬁle temperature" "PROFILE TEMPERATURE"
  /\ resolve (normalize "proﬁle temperature") = TemperatureGeneric
  /\ resolve (normalize "PROFILE TEMPERATURE") = TemperatureDepthProfile
  /\ ~ (forall s t, recasedWide s t -> resolve (normalize s) = resolve (normalize t)).
Proof.
  assert (R1 : recasedWide "ſalinity" "SALINITY").
  { apply (recasedWide_trans _ "Salinity").
    - apply (recasedWide_upper EmptyString "ſ" "S" "alinity"). simpl. auto.
    - apply recasedWide_ascii. recased_literal. }
  assert (R2 : recasedWide "salınıty" "SALINITY").
  { apply (recasedWide_trans _ "salInıty").
    - apply (recasedWide_upper "sal" "ı" "I" "nıty"). simpl. auto.
    - apply (recasedWide_trans _ "salInIty").
      + apply (recasedWide_upper "salIn" "ı" "I" "ty"). simpl. auto.
      + apply recasedWide_ascii. recased_literal. }
  assert (R3 : recasedWide "proﬁle temperature" "PROFILE TEMPERATURE").
  { apply (recasedWide_trans _ "proFIle temperature").
    - apply (recasedWide_upper "pro" "ﬁ" "FI" "le temperature"). simpl. auto.
    - apply recasedWide_ascii. recased_literal. }
  repeat (split; [first [exact R1 | exact R2 | exact R3 | vm_compute; reflexivity]|]).
  intros H. specialize (H _ _ R1). vm_compute in H. discriminate H.
Qed.

(** C8, amended. The branch taken is a function of the message alone,
    whatever the random source, the clock, the network and the state are,
    and it does not depend on the case of the letters A to Z and a to z of
    the message: two messages that differ only in the case of some of
    these letters resolve to the same intent and are answered from the
    same branch, as "TEMPERATURE trend" and "temperature TREND" are. *)
Theorem resolve_case_insensitive (s t : string) :
  recased s t ->
  resolve (normalize s) = resolve (normalize t)
  /\ (forall p w, classifyAndRespond p s w = respond p (resolve (normalize s)) w)
  /\ (forall p p' w w',
        messageOf (fst (classifyAndRespond p s w))
        = messageOf (fst (classifyAndRespond p' t w'))).
Proof.
  intros H. apply recased_toLowerCase in H.
  assert (E : resolve (normalize s) = resolve (normalize t))
    by (unfold normalize; now rewrite H).
  split; [exact E|]. split.
  - intros p w. now rewrite (classify_by_intent p s _ eq_refl).
  - intros p p' w w'.
    rewrite (classify_by_intent p s _ eq_refl), (classify_by_intent p' t _ eq_refl).
    rewrite <- E.
    destruct (resolve (normalize s)); unfold respond; reflexivity.
Qed.

Lemma recased_example : recased "TEMPERATURE trend" "temperature TREND".
Proof. recased_literal. Qed.

Lemma resolve_case_insensitive_witness :
  resolve (normalize "TEMPERATURE trend") = resolve (normalize "temperature TREND")
  /\ (forall p w, classifyAndRespond p "TEMPERATURE trend" w
                  = respond p (resolve (normalize "TEMPERATURE trend")) w)
  /\ (forall p p' w w',
        messageOf (fst (classifyAndRespond p "TEMPERATURE trend" w))
        = messageOf (fst (classifyAndRespond p' "temperature TREND" w'))).
Proof.
  apply (resolve_case_insensitive "TEMPERATURE trend" "temperature TREND").
  apply recased_example.
Defined.

(** C9. When the request for the chat history fails, whatever the user
    identifier and the error are, [getChatHistory] returns the object
    [{ messages: [] }]; the error is written to the console and goes no
    further. *)
Theorem getChatHistory_failure (p : Platform) (userId : option string) (w : World)
    (error : Value) :
  axios_get p (API_BASE_URL p ++ "/api/chat/history")
    (Obj [("params", Obj [("user_id", Str (orElse userId "demo"))])])
  = Rejected error ->
  fst (getChatHistory p userId w) = Obj [("messages", Arr [])]
  /\ snd (getChatHistory p userId w)
     = {| drawn := drawn w;
          console := console w ++ [[Str "Error fetching chat history:"; error]] |}.
Proof.
  intros H. unfold getChatHistory. rewrite H. split; reflexivity.
Qed.

Lemma getChatHistory_failure_witness :
  fst (getChatHistory (offline quarters) (Some "u-17"%string) initial)
  = Obj [("messages", Arr [])]
  /\ snd (getChatHistory (offline quarters) (Some "u-17"%string) initial)
     = {| drawn := 0;
          console := [] ++ [[Str "Error fetching chat history:"; Str "Network Error"]] |}.
Proof.
  apply (getChatHistory_failure (offline quarters) (Some "u-17"%string) initial
           (Str "Network Error")).
  reflexivity.
Defined.

Lemma maximum_spec (l : list Q) (m : Q) :
  maximum l = Some m -> In m l /\ Forall (fun a => a <= m) l.
Proof.
  revert m; induction l as [|a l IH]; intros m; simpl; [discriminate|].
  destruct (maximum l) as [m'|] eqn:E.
  - destruct (IH m' eq_refl) as [Hin Hall].
    destruct (Qle_bool a m') eqn:C; intros [= <-].
    + apply Qle_bool_iff in C. split; [now right | now constructor].
    + assert (H : m' <= a).
      { apply Qlt_le_weak, Qnot_le_lt. rewrite <- Qle_bool_iff, C. discriminate. }
      split; [now left|]. constructor; [apply Qle_refl|].
      eapply Forall_impl; [|exact Hall]. intros b Hb.
      apply (Qle_trans _ m'); [exact Hb | exact H].
  - intros [= <-]. destruct l; [|simpl in E; destruct (maximum l); discriminate].
    split; [now left | constructor; [apply Qle_refl | constructor]].
Qed.

Lemma minimum_spec (l : list Q) (m : Q) :
  minimum l = Some m -> In m l /\ Forall (fun a => m <= a) l.
Proof.
  revert m; induction l as [|a l IH]; intros m; simpl; [discriminate|].
  destruct (minimum l) as [m'|] eqn:E.
  - destruct (IH m' eq_refl) as [Hin Hall].
    destruct (Qle_bool m' a) eqn:C; intros [= <-].
    + apply Qle_bool_iff in C. split; [now right | now constructor].
    + assert (H : a <= m').
      { apply Qlt_le_weak, Qnot_le_lt. rewrite <- Qle_bool_iff, C. discriminate. }
      split; [now left|]. constructor; [apply Qle_refl|].
      eapply Forall_impl; [|exact Hall]. intros b Hb.
      apply (Qle_trans _ m'); [exact H | exact Hb].
  - intros [= <-]. destruct l; [|simpl in E; destruct (minimum l); discriminate].
    split; [now left | constructor; [apply Qle_refl | constructor]].
Qed.

(** C10. In the anomaly payload the statistics agree with the list they
    accompany: [total_anomalies] is its length, 3; [max_positive] is the
    greatest [anomaly] of its entries, 3.2; [max_negative] is the least,
    -1.8. *)
Theorem anomaly_statistics_consistent :
  exists entries anomalies,
    get "anomalies" generateTemperatureAnomalyData = Some (Arr entries)
    /\ map (fun e => asNum (get "anomaly" e)) entries = map Some anomalies
    /\ path [Key "statistics"; Key "total_anomalies"] generateTemperatureAnomalyData
       = Some (Num (inject_Z (Z.of_nat (List.length entries))))
    /\ inject_Z (Z.of_nat (List.length entries)) = 3
    /\ asNum (path [Key "statistics"; Key "max_positive"] generateTemperatureAnomalyData)
       = maximum anomalies
    /\ maximum anomalies = Some 3.2
    /\ asNum (path [Key "statistics"; Key "max_negative"] generateTemperatureAnomalyData)
       = minimum anomalies
    /\ minimum anomalies = Some (-1.8).
Proof.
  exists
    [Obj [("date", Str "2024-01-15"); ("value", Num 20.1); ("anomaly", Num 2.1);
          ("lat", Num 45.2); ("lon", Num (-30.1))];
     Obj [("date", Str "2024-01-22"); ("value", Num 16.2); ("anomaly", Num (-1.8));
          ("lat", Num 47.8); ("lon", Num (-28.5))];
     Obj [("date", Str "2024-02-03"); ("value", Num 21.2); ("anomaly", Num 3.2);
          ("lat", Num 44.1); ("lon", Num (-32.3))]]%string,
    [2.1; -1.8; 3.2].
  repeat (split; [reflexivity|]). reflexivity.
Qed.

(** ** Further properties of the response engine *)

Lemma occurs_includes (k s : string) : occurs k s <-> includes s k = true.
Proof. unfold occurs. symmetry. apply includes_spec. Qed.

Lemma not_occurs_includes (k s : string) : ~ occurs k s <-> includes s k = false.
Proof. rewrite occurs_includes. apply not_true_iff_false. Qed.

Lemma toLowerCase_app (a b : string) :
  toLowerCase (a ++ b) = (toLowerCase a ++ toLowerCase b)%string.
Proof. induction a as [|c a IH]; simpl; [|rewrite IH]; reflexivity. Qed.

Lemma string_app_assoc (a b c : string) : ((a ++ b) ++ c = a ++ (b ++ c))%string.
Proof. induction a as [|x a IH]; simpl; [|rewrite IH]; reflexivity. Qed.

Lemma occurs_extend (k s pre post : string) :
  occurs k s -> occurs k (pre ++ s ++ post).
Proof.
  intros (a & b & ->). exists (pre ++ a)%string, (b ++ post)%string.
  now rewrite !string_app_assoc.
Qed.

Lemma includes_extend (k s pre post : string) :
  includes (toLowerCase s) k = true ->
  includes (toLowerCase (pre ++ s ++ post)) k = true.
Proof.
  rewrite <- !occurs_includes, !toLowerCase_app. apply occurs_extend.
Qed.

(** X1. The default response is given exactly when the lower-cased message
    contains none of the six keywords tested at the top level; "anomaly",
    "unusual", "depth", "profile" and "trend" do not count on their own. *)
Theorem default_iff_no_keyword (s : string) :
  resolve (normalize s) = Default
  <-> Forall (fun k => ~ occurs k (toLowerCase s)) topKeywords.
Proof.
  unfold topKeywords. rewrite !Forall_cons_iff, !not_occurs_includes.
  unfold resolve, normalize. set (t := toLowerCase s).
  destruct (includes t "temperature") eqn:T.
  - split.
    + intros H. pose proof (resolve_temperature t T) as Hin.
      unfold resolve in Hin. rewrite T in Hin. rewrite H in Hin.
      simpl in Hin. intuition discriminate.
    + intros [H _]. discriminate H.
  - destruct (includes t "salinity"), (includes t "current"), (includes t "velocity"),
      (includes t "atlantic"), (includes t "pacific"); simpl;
      split; try discriminate; try (intros; repeat split; constructor);
      intuition discriminate.
Qed.

(** X2. The decision table of the conditional, in terms of the keywords
    that occur in the lower-cased message: "temperature" decides first and
    then "anomaly" or "unusual", "depth" or "profile", "trend" in that
    order; without "temperature", "salinity" comes before "current" or
    "velocity", these before "atlantic", and "atlantic" before "pacific". *)
Theorem decision_table (s : string) :
  let t := toLowerCase s in
  let i := resolve (normalize s) in
  (In i temperatureIntents <-> occurs "temperature" t)
  /\ (i = TemperatureAnomaly
      <-> occurs "temperature" t /\ (occurs "anomaly" t \/ occurs "unusual" t))
  /\ (i = TemperatureDepthProfile
      <-> occurs "temperature" t /\ ~ occurs "anomaly" t /\ ~ occurs "unusual" t
          /\ (occurs "depth" t \/ occurs "profile" t))
  /\ (i = TemperatureTrend
      <-> occurs "temperature" t /\ ~ occurs "anomaly" t /\ ~ occurs "unusual" t
          /\ ~ occurs "depth" t /\ ~ occurs "profile" t /\ occurs "trend" t)
  /\ (i = Salinity <-> ~ occurs "temperature" t /\ occurs "salinity" t)
  /\ (i = CurrentVelocity
      <-> ~ occurs "temperature" t /\ ~ occurs "salinity" t
          /\ (occurs "current" t \/ occurs "velocity" t))
  /\ (i = RegionAtlantic
      <-> ~ occurs "temperature" t /\ ~ occurs "salinity" t /\ ~ occurs "current" t
          /\ ~ occurs "velocity" t /\ occurs "atlantic" t)
  /\ (i = RegionPacific
      <-> ~ occurs "temperature" t /\ ~ occurs "salinity" t /\ ~ occurs "current" t
          /\ ~ occurs "velocity" t /\ ~ occurs "atlantic" t /\ occurs "pacific" t).
Proof.
  cbv zeta. unfold normalize. set (t := toLowerCase s).
  rewrite !not_occurs_includes, !occurs_includes.
  unfold resolve, temperatureIntents.
  destruct (includes t "temperature").
  - destruct (includes t "anomaly"), (includes t "unusual"), (includes t "depth"),
      (includes t "profile"), (includes t "trend"); cbn;
      repeat split; intros; intuition (discriminate || congruence).
  - destruct (includes t "salinity"), (includes t "current"), (includes t "velocity"),
      (includes t "atlantic"), (includes t "pacific"); cbn;
      repeat split; intros; intuition (discriminate || congruence).
Qed.

Lemma resolve_temperature_iff (t : string) :
  In (resolve t) temperatureIntents <-> includes t "temperature" = true.
Proof.
  split; [|apply resolve_temperature].
  unfold resolve, temperatureIntents. destruct (includes t "temperature"); [reflexivity|].
  destruct (includes t "salinity"), (includes t "current" || includes t "velocity"),
    (includes t "atlantic"), (includes t "pacific"); simpl; intuition discriminate.
Qed.

Lemma resolve_anomaly_iff (t : string) :
  resolve t = TemperatureAnomaly
  <-> includes t "temperature" = true
      /\ (includes t "anomaly" || includes t "unusual") = true.
Proof.
  unfold resolve. destruct (includes t "temperature").
  - destruct (includes t "anomaly" || includes t "unusual"); [now split|].
    destruct (includes t "depth" || includes t "profile"), (includes t "trend");
      split; intros H; try discriminate; destruct H; discriminate.
  - destruct (includes t "salinity"), (includes t "current" || includes t "velocity"),
      (includes t "atlantic"), (includes t "pacific");
      split; intros H; try discriminate; destruct H; discriminate.
Qed.

(** X3. Text put before and after a message never takes it out of the
    temperature branches, and never takes a temperature-anomaly question
    out of the anomaly branch: no other rule can override these. *)
Theorem temperature_survives_extension (s pre post : string) :
  In (resolve (normalize s)) temperatureIntents ->
  In (resolve (normalize (pre ++ s ++ post))) temperatureIntents
  /\ (resolve (normalize s) = TemperatureAnomaly ->
      resolve (normalize (pre ++ s ++ post)) = TemperatureAnomaly).
Proof.
  unfold normalize. rewrite !resolve_temperature_iff, !resolve_anomaly_iff.
  intros T. split; [now apply includes_extend|].
  intros [_ A]. split; [now apply includes_extend|].
  apply orb_true_iff in A. apply orb_true_iff.
  destruct A as [A|A]; [left|right]; now apply includes_extend.
Qed.

Lemma temperature_survives_extension_witness :
  In (resolve (normalize ("Please show " ++ "Temperature Anomaly" ++ " and salinity")))
     temperatureIntents
  /\ (resolve (normalize "Temperature Anomaly") = TemperatureAnomaly ->
      resolve (normalize ("Please show " ++ "Temperature Anomaly" ++ " and salinity"))
      = TemperatureAnomaly).
Proof.
  apply (temperature_survives_extension "Temperature Anomaly" "Please show "
           " and salinity").
  vm_compute. now left.
Defined.

Lemma respond_message_distinct (p p' : Platform) (w w' : World) (i j : Intent) :
  messageOf (fst (respond p i w)) = messageOf (fst (respond p' j w')) -> i = j.
Proof.
  destruct i, j; intros H; try reflexivity; exfalso;
    vm_compute in H; discriminate H.
Qed.

(** X4. The message of a response tells the branch it comes from: two
    messages are answered with the same [message] text exactly when they
    resolve to the same intent, whatever the platforms and states are. *)
Theorem same_message_iff_same_intent (p p' : Platform) (w w' : World) (s t : string) :
  messageOf (fst (generateMockResponse p s w))
  = messageOf (fst (generateMockResponse p' t w'))
  <-> resolve (normalize s) = resolve (normalize t).
Proof.
  rewrite !generateMockResponse_respond. split.
  - apply respond_message_distinct.
  - intros <-. destruct (resolve (normalize s)); unfold respond; reflexivity.
Qed.

Lemma advance_advance (n m : nat) (w : World) :
  advance m (advance n w) = advance (n + m) w.
Proof. unfold advance. simpl. now rewrite Nat.add_assoc. Qed.

(** X5. [generateMockResponse] never writes to the console, and it calls
    [Math.random] sixty times in the generic temperature branch and not at
    all in any other branch. *)
Theorem generateMockResponse_effect (p : Platform) (s : string) (w : World) :
  drawn (snd (generateMockResponse p s w))
  = (drawn w + drawsOf (resolve (normalize s)))%nat
  /\ console (snd (generateMockResponse p s w)) = console w.
Proof.
  rewrite generateMockResponse_respond.
  destruct (resolve (normalize s)); unfold respond, drawsOf.
  4: { destruct (temperatureGenericResponse_run p w)
         as (dates & x & layout & message & suggestions & -> & _ & _).
       split; reflexivity. }
  all: split; cbn; [lia | reflexivity].
Qed.

(** The generic temperature response, in full. *)
Lemma temperatureGenericResponse_value (p : Platform) (w : World) :
  fst (temperatureGenericResponse p w)
  = response
      "I've retrieved temperature data for your specified region and time period. The analysis shows mean temperatures of 18.7°C with a standard deviation of 2.3°C. Data quality is excellent with 96% valid measurements from 47 active floats."
      (Obj [("dates", Arr (map (fun i => Str (isoDate p (29 - i))) (seq 0 30)));
            ("temperatures", Arr (map Num (temperaturesFrom p (drawn w) 30)));
            ("statistics", seriesStatistics)])
      [plot (Obj [
         ("data", Arr [
            Obj [("x", Arr (map (fun i => Str (localeDate p (29 - i))) (seq 0 30)));
                 ("y", Arr (map Num (temperaturesFrom p (drawn w + 30) 30)));
                 ("type", Str "scatter");
                 ("mode", Str "lines+markers");
                 ("name", Str "Temperature");
                 ("line", Obj [("color", Str "#0891b2"); ("width", Num 3)])]]);
         ("layout", Obj [
            ("title", Str "Ocean Temperature Time Series");
            ("xaxis", Obj [("title", Str "Date")]);
            ("yaxis", Obj [("title", Str "Temperature (°C)")])])]);
       map_ generateTemperatureMapData]
      ["Show temperature depth profile";
       "Analyze temperature anomalies";
       "Compare with salinity data";
       "Display seasonal patterns"]%string.
Proof.
  unfold temperatureGenericResponse, bind.
  rewrite generateTemperatureTimeSeriesData_run.
  unfold generateTemperatureTimeSeriesVisualization, Array_from, bind.
  rewrite from_index_ret, from_index_draw. reflexivity.
Qed.

(** X6. Every visualization of every response can be shown by the chat
    view: it is a plot whose series have [x] and [y] arrays of one
    length, numbers in [y] and titles in the layout, or a map whose markers
    have a latitude in [-90, 90], a longitude in [-180, 180], a title, a
    description and string attributes. *)
Theorem visualizations_well_formed (p : Platform) (w : World) (s : string) :
  exists visualizations,
    get "visualizations" (fst (generateMockResponse p s w)) = Some (Arr visualizations)
    /\ forallb wfVisualization visualizations = true.
Proof.
  rewrite generateMockResponse_respond.
  destruct (resolve (normalize s)); unfold respond.
  4: { rewrite temperatureGenericResponse_value. eexists. split; [reflexivity|].
       cbn [forallb]. rewrite !andb_true_iff. split; [|split; reflexivity].
       unfold wfVisualization, plot.
       cbn [get lookup String.eqb Ascii.eqb Bool.eqb].
       unfold wfPlot.
       cbn [get lookup path String.eqb Ascii.eqb Bool.eqb isStr List.length Nat.eqb
              negb andb forallb].
       unfold wfTrace.
       cbn [get lookup String.eqb Ascii.eqb Bool.eqb asNums arrLength isStr].
       rewrite numbers_map_Num, temperaturesFrom_length, length_map, length_seq.
       reflexivity. }
  all: eexists; split; [reflexivity|]; vm_compute; reflexivity.
Qed.



Lemma strings_map_Str (l : list string) : strings (map Str l) = Some l.
Proof. induction l as [|g l IH]; simpl; [|rewrite IH]; reflexivity. Qed.

Lemma suggestionsOf_response (message : string) (data : Value) (vis : list Value)
    (suggestions : list string) :
  suggestionsOf (response message data vis suggestions) = suggestions.
Proof.
  unfold suggestionsOf, response, strs.
  cbn [get lookup String.eqb Ascii.eqb Bool.eqb].
  now rewrite strings_map_Str.
Qed.

(** The four suggestions of each branch. *)
Lemma suggestionsOf_respond (p : Platform) (w : World) (i : Intent) :
  suggestionsOf (fst (respond p i w))
  = match i with
    | TemperatureAnomaly =>
        ["Show depth profile for these anomalies"; "Compare with historical data";
         "Analyze salinity during anomaly periods"; "Check ocean current patterns"]
    | TemperatureDepthProfile =>
        ["Show salinity depth profile"; "Compare different seasons";
         "Analyze thermocline variability"; "Display mixed layer depth"]
    | TemperatureTrend =>
        ["Show confidence intervals"; "Compare with global trends";
         "Analyze seasonal variations"; "Project future temperatures"]
    | TemperatureGeneric =>
        ["Show temperature depth profile"; "Analyze temperature anomalies";
         "Compare with salinity data"; "Display seasonal patterns"]
    | Salinity =>
        ["Show salinity-temperature relationship"; "Analyze density profiles";
         "Display freshwater influence"; "Compare with temperature data"]
    | CurrentVelocity =>
        ["Show velocity depth profile"; "Analyze current direction patterns";
         "Compare with wind data"; "Display eddy activity"]
    | RegionAtlantic =>
        ["Analyze Gulf Stream influence"; "Show North Atlantic Oscillation effects";
         "Compare with Pacific data"; "Display seasonal variations"]
    | RegionPacific =>
        ["Show El Niño effects"; "Analyze Pacific Decadal Oscillation";
         "Display equatorial upwelling"; "Compare North vs South Pacific"]
    | Default =>
        ["Show me temperature trends"; "Analyze salinity patterns";
         "Display depth profiles"; "Find temperature anomalies"]
    end%string.
Proof.
  destruct i; unfold respond.
  4: { rewrite temperatureGenericResponse_value. apply suggestionsOf_response. }
  all: reflexivity.
Qed.

(** X9. No suggestion the application offers leads to the anomaly branch:
    the four suggestions of every response, those under the greeting and
    those under the error message all resolve to other intents (the plural
    "anomalies" does not contain "anomaly"). *)
Theorem suggestions_never_reach_anomaly (p : Platform) (w : World) (s : string) :
  List.length (suggestionsOf (fst (generateMockResponse p s w))) = 4%nat
  /\ Forall (fun g => resolve (normalize g) <> TemperatureAnomaly)
       (suggestionsOf (fst (generateMockResponse p s w))
        ++ greetingSuggestions ++ errorSuggestions).
Proof.
  rewrite generateMockResponse_respond, suggestionsOf_respond.
  destruct (resolve (normalize s)); (split; [reflexivity|]);
    repeat (apply Forall_cons || apply Forall_nil); vm_compute; discriminate.
Qed.

(** X10. A chat that is at one of the default, trend, generic temperature,
    depth-profile and salinity branches stays among these five when the
    next message is one of the suggestions of the response. *)
Theorem suggestions_stay_browsing (p : Platform) (w : World) (s : string) :
  In (resolve (normalize s)) browsing ->
  Forall (fun g => In (resolve (normalize g)) browsing)
    (suggestionsOf (fst (generateMockResponse p s w))).
Proof.
  rewrite generateMockResponse_respond, suggestionsOf_respond.
  destruct (resolve (normalize s)); unfold browsing; intros H;
    try (exfalso; simpl in H; intuition discriminate);
    repeat (apply Forall_cons || apply Forall_nil); vm_compute; tauto.
Qed.

Lemma suggestions_stay_browsing_witness :
  Forall (fun g => In (resolve (normalize g)) browsing)
    (suggestionsOf (fst (generateMockResponse (offline quarters) "hello" initial))).
Proof.
  apply (suggestions_stay_browsing (offline quarters) initial "hello").
  vm_compute. now left.
Defined.

(** ** Further properties of [chatService] *)

(** The response of a branch reads the state in its draw count only. *)
Lemma respond_console_irrelevant (p : Platform) (i : Intent) (w : World)
    (lines : list (list Value)) :
  fst (respond p i {| drawn := drawn w; console := lines |}) = fst (respond p i w).
Proof.
  destruct i; unfold respond.
  4: now rewrite !temperatureGenericResponse_value.
  all: reflexivity.
Qed.

Lemma respond_effect (p : Platform) (i : Intent) (w : World) :
  snd (respond p i w) = advance (drawsOf i) w.
Proof.
  destruct i; unfold respond, drawsOf.
  4: { destruct (temperatureGenericResponse_run p w)
         as (dates & x & layout & message & suggestions & -> & _ & _).
       reflexivity. }
  all: destruct w as [d c]; unfold advance; cbn; now rewrite Nat.add_0_r.
Qed.

(** Every branch returns a document with a non-empty message, four
    suggestions and one or two visualizations. *)
Lemma respond_shape (p : Platform) (i : Intent) (w : World) :
  exists message data visualizations suggestions,
    fst (respond p i w) = response message data visualizations suggestions
    /\ message <> ""%string
    /\ List.length suggestions = 4%nat
    /\ (1 <= List.length visualizations <= 2)%nat.
Proof.
  destruct i; unfold respond.
  4: { rewrite temperatureGenericResponse_value. eexists _, _, _, _.
       split; [reflexivity|]. split; [discriminate|]. split; [reflexivity|].
       simpl; lia. }
  all: eexists _, _, _, _; (split; [reflexivity|]); (split; [discriminate|]);
    (split; [reflexivity|]); simpl; lia.
Qed.

Lemma sendMessage_rejected (p : Platform) (message : string) (w : World) (error : Value) :
  axios_post p (API_BASE_URL p ++ "/api/chat/") (chatBody p message) chatConfig
  = Rejected error ->
  sendMessage p message w
  = generateMockResponse p message
      {| drawn := drawn w;
         console := console w ++ [[Str "Chat service error:"; error]] |}.
Proof.
  intros H. unfold sendMessage. fold (chatBody p message). fold chatConfig.
  rewrite H. unfold bind, console_error, ret.
  destruct (generateMockResponse p message _). reflexivity.
Qed.

(** X11. When the request to the backend fails, with whatever error, and
    for whatever message, [sendMessage] does not fail: it answers with the
    response of the engine to that message, a document with a non-empty
    message, four suggestions and one or two visualizations, and writes
    one line, with the error, to the console. *)
Theorem sendMessage_offline (p : Platform) (message : string) (w : World)
    (error : Value) :
  axios_post p (API_BASE_URL p ++ "/api/chat/") (chatBody p message) chatConfig
  = Rejected error ->
  let r := fst (sendMessage p message w) in
  let w' := snd (sendMessage p message w) in
  r = fst (generateMockResponse p message w)
  /\ (exists text data visualizations suggestions,
        r = response text data visualizations suggestions
        /\ text <> ""%string
        /\ List.length suggestions = 4%nat
        /\ (1 <= List.length visualizations <= 2)%nat)
  /\ console w' = console w ++ [[Str "Chat service error:"; error]]
  /\ drawn w' = (drawn w + drawsOf (resolve (normalize message)))%nat.
Proof.
  intros H. cbv zeta. rewrite (sendMessage_rejected _ _ _ _ H).
  rewrite !generateMockResponse_respond.
  set (i := resolve (normalize message)).
  rewrite respond_console_irrelevant, respond_effect.
  split; [reflexivity|]. split; [apply respond_shape|]. split; reflexivity.
Qed.

Lemma sendMessage_offline_witness :
  let r := fst (sendMessage (offline quarters) "Salinity near Australia?" initial) in
  let w' := snd (sendMessage (offline quarters) "Salinity near Australia?" initial) in
  r = fst (generateMockResponse (offline quarters) "Salinity near Australia?" initial)
  /\ (exists text data visualizations suggestions,
        r = response text data visualizations suggestions
        /\ text <> ""%string
        /\ List.length suggestions = 4%nat
        /\ (1 <= List.length visualizations <= 2)%nat)
  /\ console w' = console initial ++ [[Str "Chat service error:"; Str "Network Error"]]
  /\ drawn w'
     = (drawn initial + drawsOf (resolve (normalize "Salinity near Australia?")))%nat.
Proof.
  apply (sendMessage_offline (offline quarters) "Salinity near Australia?" initial
           (Str "Network Error")).
  reflexivity.
Defined.

Lemma bind_run {A B} (m : M A) (f : A -> M B) (w w' : World) (a : A) :
  m w = (a, w') -> bind m f w = f a w'.
Proof. intros H. unfold bind. now rewrite H. Qed.

Lemma generic_data_temperatures (p : Platform) (v : World) :
  asNums (path [Key "data"; Key "temperatures"] (fst (respond p TemperatureGeneric v)))
  = Some (temperaturesFrom p (drawn v) 30).
Proof.
  unfold respond. rewrite temperatureGenericResponse_value.
  cbn [path get response lookup String.eqb Ascii.eqb Bool.eqb asNums].
  apply numbers_map_Num.
Qed.

Lemma sendMessage_generic_offline (p : Platform) (s : string) (v : World) (e : Value) :
  axios_post p (API_BASE_URL p ++ "/api/chat/") (chatBody p s) chatConfig
  = Rejected e ->
  resolve (normalize s) = TemperatureGeneric ->
  sendMessage p s v
  = (fst (respond p TemperatureGeneric v),
     {| drawn := drawn v + 60;
        console := console v ++ [[Str "Chat service error:"; e]] |}).
Proof.
  intros H G.
  rewrite (sendMessage_rejected _ _ _ _ H), generateMockResponse_respond, G.
  rewrite (surjective_pairing (respond p TemperatureGeneric _)).
  rewrite respond_effect, respond_console_irrelevant. reflexivity.
Qed.

(** X12. Two generic temperature questions asked one after the other while
    the backend is down are answered from different draws: the first data
    series uses the next thirty draws, the second the thirty draws that
    start sixty later, and the console holds one line for each call. *)
Theorem offline_calls_use_fresh_draws (p : Platform) (w : World) (s1 s2 : string)
    (e1 e2 : Value) :
  axios_post p (API_BASE_URL p ++ "/api/chat/") (chatBody p s1) chatConfig
  = Rejected e1 ->
  axios_post p (API_BASE_URL p ++ "/api/chat/") (chatBody p s2) chatConfig
  = Rejected e2 ->
  resolve (normalize s1) = TemperatureGeneric ->
  resolve (normalize s2) = TemperatureGeneric ->
  let run := (r1 <- sendMessage p s1 ;; r2 <- sendMessage p s2 ;; ret (r1, r2)) w in
  asNums (path [Key "data"; Key "temperatures"] (fst (fst run)))
  = Some (temperaturesFrom p (drawn w) 30)
  /\ asNums (path [Key "data"; Key "temperatures"] (snd (fst run)))
     = Some (temperaturesFrom p (drawn w + 60) 30)
  /\ drawn (snd run) = (drawn w + 120)%nat
  /\ console (snd run)
     = console w ++ [[Str "Chat service error:"; e1]; [Str "Chat service error:"; e2]].
Proof.
  intros H1 H2 G1 G2 run.
  assert (E : run
              = ((fst (respond p TemperatureGeneric w),
                  fst (respond p TemperatureGeneric
                         {| drawn := drawn w + 60;
                            console := console w ++ [[Str "Chat service error:"; e1]] |})),
                 {| drawn := drawn w + 60 + 60;
                    console := (console w ++ [[Str "Chat service error:"; e1]])
                               ++ [[Str "Chat service error:"; e2]] |})).
  { unfold run.
    rewrite (bind_run _ _ _ _ _ (sendMessage_generic_offline p s1 w e1 H1 G1)).
    rewrite (bind_run _ _ _ _ _ (sendMessage_generic_offline p s2 _ e2 H2 G2)).
    reflexivity. }
  rewrite E. clear E run.
  pose proof (generic_data_temperatures p w) as D1.
  pose proof (generic_data_temperatures p
                {| drawn := drawn w + 60;
                   console := console w ++ [[Str "Chat service error:"; e1]] |}) as D2.
  revert D1 D2.
  generalize (fst (respond p TemperatureGeneric w)).
  generalize (fst (respond p TemperatureGeneric
                     {| drawn := drawn w + 60;
                        console := console w ++ [[Str "Chat service error:"; e1]] |})).
  intros r2 r1 D1 D2. cbn [fst snd drawn console] in *.
  split; [exact D1|]. split; [exact D2|]. split; [lia|].
  now rewrite <- app_assoc.
Qed.

Lemma offline_calls_use_fresh_draws_witness :
  let run := (r1 <- sendMessage (offline quarters) "temperature" ;;
              r2 <- sendMessage (offline quarters) "Temperature again" ;;
              ret (r1, r2)) initial in
  asNums (path [Key "data"; Key "temperatures"] (fst (fst run)))
  = Some (temperaturesFrom (offline quarters) (drawn initial) 30)
  /\ asNums (path [Key "data"; Key "temperatures"] (snd (fst run)))
     = Some (temperaturesFrom (offline quarters) (drawn initial + 60) 30)
  /\ drawn (snd run) = (drawn initial + 120)%nat
  /\ console (snd run)
     = console initial ++ [[Str "Chat service error:"; Str "Network Error"];
                           [Str "Chat service error:"; Str "Network Error"]].
Proof.
  apply (offline_calls_use_fresh_draws (offline quarters) initial "temperature"
           "Temperature again" (Str "Network Error") (Str "Network Error"));
    reflexivity.
Defined.

(** X13. A chat history asked for without a user identifier, or with the
    empty one, is the chat history of the user "demo". *)
Theorem getChatHistory_default_user (p : Platform) (w : World) :
  getChatHistory p None w = getChatHistory p (Some "demo"%string) w
  /\ getChatHistory p (Some ""%string) w = getChatHistory p (Some "demo"%string) w.
Proof. split; reflexivity. Qed.

(** ** Properties of [exportService] *)

Section ExportFacts.

Variable lib : PdfPlatform.

Lemma linesOf_app (a b : list PdfCall) : linesOf (a ++ b) = linesOf a ++ linesOf b.
Proof.
  induction a as [|c a IH]; [reflexivity|]. destruct c; simpl; now rewrite ?IH.
Qed.

Lemma startsOf_app (a b : list PdfCall) : startsOf (a ++ b) = startsOf a ++ startsOf b.
Proof.
  induction a as [|c a IH]; [reflexivity|]. destruct c; simpl; now rewrite ?IH.
Qed.

Lemma pagesOf_app (a b : list PdfCall) :
  (pagesOf (a ++ b) + 1 = pagesOf a + pagesOf b)%nat.
Proof.
  induction a as [|c a IH]; simpl; [lia|]. destruct c; simpl; lia.
Qed.

(** What one round adds to the calls: at most a page break, and the
    message, at a height between 20 and 250. *)
Lemma drawMessage_step (y : Q) (calls : list PdfCall) (message : ChatMessage) :
  20 <= y ->
  exists y0 break,
    drawMessage lib (y, calls) message
    = (y0 + (inject_Z (Z.of_nat (List.length (messageLines lib message))) * 7 + 10),
       calls ++ break ++ [textLines (messageLines lib message) margin y0])
    /\ (break = [] \/ break = [addPage])
    /\ 20 <= y0 /\ y0 <= 250.
Proof.
  intros Hy. unfold drawMessage. fold (messageLines lib message).
  destruct (Qle_bool y 250) eqn:C; cbn [negb].
  - exists y, []. apply Qle_bool_iff in C. repeat split; auto.
  - exists margin, [addPage]. rewrite <- app_assoc.
    repeat split; auto; unfold margin; lra.
Qed.

Lemma lines_nonnegative (l : list string) : 0 <= inject_Z (Z.of_nat (List.length l)).
Proof. unfold Qle, inject_Z. cbn [Qnum Qden]. lia. Qed.

Lemma fold_drawMessage (messages : list ChatMessage) (y : Q) (calls : list PdfCall) :
  20 <= y ->
  let final := snd (fold_left (drawMessage lib) messages (y, calls)) in
  linesOf final = linesOf calls ++ map (messageLines lib) messages
  /\ (Forall (fun xy => fst xy = margin /\ 20 <= snd xy /\ snd xy <= 250) (startsOf calls) ->
      Forall (fun xy => fst xy = margin /\ 20 <= snd xy /\ snd xy <= 250) (startsOf final))
  /\ (pagesOf calls <= pagesOf final <= pagesOf calls + List.length messages)%nat.
Proof.
  revert y calls. induction messages as [|m messages IH]; intros y calls Hy; cbv zeta.
  - cbn [fold_left snd map List.length]. rewrite app_nil_r. repeat split; auto; lia.
  - cbn [fold_left map List.length].
    destruct (drawMessage_step y calls m Hy) as (y0 & break & -> & Hb & H0 & H1).
    pose proof (lines_nonnegative (messageLines lib m)) as Hn.
    destruct (IH (y0 + (inject_Z (Z.of_nat (List.length (messageLines lib m))) * 7 + 10))
                 (calls ++ break ++ [textLines (messageLines lib m) margin y0])
                 ltac:(lra)) as (L & S & P).
    cbv zeta in L, S, P. rewrite L. clear L.
    rewrite !linesOf_app, !startsOf_app in *.
    pose proof (pagesOf_app calls (break ++ [textLines (messageLines lib m) margin y0])) as Pa.
    destruct Hb as [-> | ->]; cbn [app linesOf startsOf pagesOf] in *;
      rewrite <- ?app_assoc; cbn [app];
      (split; [reflexivity|]); (split; [|lia]);
      intros F; apply S, Forall_app; (split; [exact F|]);
      repeat constructor; assumption.
Qed.

End ExportFacts.

Lemma linesOf_startsOf_length (calls : list PdfCall) :
  List.length (linesOf calls) = List.length (startsOf calls).
Proof.
  induction calls as [|c l IH]; [reflexivity|]. destruct c; simpl; now rewrite ?IH.
Qed.

Lemma exportChatToPDF_calls (lib : PdfPlatform) (messages : list ChatMessage) :
  exportChatToPDF lib messages
  = snd (fold_left (drawMessage lib) messages
           (margin + 20 + 20,
            [setFontSize 20; text "FloatChat - Ocean Data Analysis" margin margin;
             setFontSize 10; text ("Generated: " ++ localeNow lib) margin (margin + 20);
             setFontSize 12]))
    ++ [save "floatchat-conversation.pdf"].
Proof.
  unfold exportChatToPDF. cbn [app].
  destruct (fold_left (drawMessage lib) messages _) as [y calls]. reflexivity.
Qed.

(** X16. The exported document holds every message of the chat exactly
    once and in the order of the chat, none is left out or cut in two by a
    page break: the texts drawn are, message by message, the lines of
    "User: " or "Bot: " followed by the content. *)
Theorem export_keeps_every_message (lib : PdfPlatform) (messages : list ChatMessage) :
  linesOf (exportChatToPDF lib messages)
  = map (fun m => splitTextToSize lib (messageText m) (pageWidth lib - 2 * margin))
      messages.
Proof.
  rewrite exportChatToPDF_calls, linesOf_app.
  destruct (fold_drawMessage lib messages (margin + 20 + 20)
              [setFontSize 20; text "FloatChat - Ocean Data Analysis" margin margin;
               setFontSize 10; text ("Generated: " ++ localeNow lib) margin (margin + 20);
               setFontSize 12]
              ltac:(unfold margin; lra)) as (L & _ & _).
  cbv zeta in L. rewrite L. cbn [linesOf app]. now rewrite app_nil_r.
Qed.

(** X17. Every message of the exported document starts at the left margin
    and at a height between 20 and 250, whatever the number of lines of the
    messages before it, and the document has at most one page more than
    there are messages. *)
Theorem export_layout (lib : PdfPlatform) (messages : list ChatMessage) :
  Forall (fun xy => fst xy = margin /\ 20 <= snd xy /\ snd xy <= 250)
    (startsOf (exportChatToPDF lib messages))
  /\ List.length (startsOf (exportChatToPDF lib messages)) = List.length messages
  /\ (1 <= pagesOf (exportChatToPDF lib messages) <= 1 + List.length messages)%nat.
Proof.
  rewrite exportChatToPDF_calls.
  destruct (fold_drawMessage lib messages (margin + 20 + 20)
              [setFontSize 20; text "FloatChat - Ocean Data Analysis" margin margin;
               setFontSize 10; text ("Generated: " ++ localeNow lib) margin (margin + 20);
               setFontSize 12]
              ltac:(unfold margin; lra)) as (L & S & P).
  cbv zeta in L, S, P.
  set (final := snd (fold_left (drawMessage lib) messages _)) in *.
  rewrite startsOf_app. cbn [startsOf]. rewrite app_nil_r.
  split; [apply S; constructor|]. split.
  - rewrite <- linesOf_startsOf_length, L. cbn [linesOf app]. apply length_map.
  - pose proof (pagesOf_app final [save "floatchat-conversation.pdf"]) as Pa.
    cbn [pagesOf] in Pa, P. lia.
Qed.

(** ** Properties of [dashboardService] *)

(** X14. When the request for the dashboard fails, with whatever error,
    [getDashboardData] returns the built-in dashboard, four statistics and
    four recent queries, and writes the error to the console. *)
Theorem getDashboardData_failure (p : Platform) (w : World) (error : Value) :
  axios_get p (API_BASE_URL p ++ "/api/dashboard") Undefined = Rejected error ->
  fst (getDashboardData p w) = fallbackDashboard
  /\ (exists stats queries,
        get "stats" (fst (getDashboardData p w)) = Some (Obj stats)
        /\ List.length stats = 4%nat
        /\ Forall (fun kv => exists n, snd kv = Num n) stats
        /\ get "recentQueries" (fst (getDashboardData p w)) = Some (strs queries)
        /\ List.length queries = 4%nat)
  /\ snd (getDashboardData p w)
     = {| drawn := drawn w;
          console := console w ++ [[Str "Dashboard service error:"; error]] |}.
Proof.
  intros H. unfold getDashboardData. rewrite H. cbn [bind console_error ret fst snd].
  split; [reflexivity|]. split; [|reflexivity].
  eexists _, _. split; [reflexivity|]. split; [reflexivity|].
  split; [|split; reflexivity].
  repeat (apply Forall_cons || apply Forall_nil); eexists; reflexivity.
Qed.

Lemma getDashboardData_failure_witness :
  fst (getDashboardData (offline quarters) initial) = fallbackDashboard
  /\ (exists stats queries,
        get "stats" (fst (getDashboardData (offline quarters) initial)) = Some (Obj stats)
        /\ List.length stats = 4%nat
        /\ Forall (fun kv => exists n, snd kv = Num n) stats
        /\ get "recentQueries" (fst (getDashboardData (offline quarters) initial))
           = Some (strs queries)
        /\ List.length queries = 4%nat)
  /\ snd (getDashboardData (offline quarters) initial)
     = {| drawn := drawn initial;
          console := console initial
                     ++ [[Str "Dashboard service error:"; Str "Network Error"]] |}.
Proof.
  apply (getDashboardData_failure (offline quarters) initial (Str "Network Error")).
  reflexivity.
Defined.

(** X15. [saveQuery] never fails and never hands anything back: whatever
    the outcome of the request its result is [undefined]; a rejected
    request leaves one line on the console, an accepted one none, and no
    random number is drawn. *)
Theorem saveQuery_swallows_errors (p : Platform) (query : string) (results : Value)
    (w : World) :
  fst (saveQuery p query results w) = Undefined
  /\ drawn (snd (saveQuery p query results w)) = drawn w
  /\ console (snd (saveQuery p query results w))
     = console w
       ++ match
            axios_post p (API_BASE_URL p ++ "/api/dashboard/save-query")
              (Obj [("query", Str query); ("results", results);
                    ("timestamp", Str (nowISO p))])
              Undefined
          with
          | Fulfilled _ => []
          | Rejected error => [[Str "Save query error:"; error]]
          end.
Proof.
  unfold saveQuery. destruct (axios_post p _ _ _) as [response|error].
  - cbn. now rewrite app_nil_r.
  - cbn. auto.
Qed.

(** ** Properties of [authService] and of the provider *)

Section AuthFacts.

Import AuthService.

(** X18. A login and a logout survive a reload of the page: a service
    made anew from the storage left by [setToken] holds that token, one
    made from the storage left by [logout] holds none. *)
Theorem token_survives_reload (s : Session) (t : string) :
  getToken (setToken t s) = Some t
  /\ constructor (localStorage (setToken t s)) = setToken t s
  /\ getToken (logout (setToken t s)) = None
  /\ constructor (localStorage (logout s)) = logout s.
Proof. repeat split. Qed.

(** X19. The service reads and writes one key of the storage only:
    whatever is called, an entry under another key than "access_token" is
    left as it was. *)
Theorem other_keys_untouched (s : Session) (c : ServiceCall) (key : string) :
  key <> "access_token"%string ->
  getItem key (localStorage (afterCall s c)) = getItem key (localStorage s).
Proof.
  intros H. apply String.eqb_neq in H.
  destruct c as [server cr | p d | p | p | | t]; cbn [afterCall].
  - unfold login. destruct (post_login server _ _ _); [|reflexivity].
    cbn. unfold getItem, setItem. now rewrite H.
  - unfold register. destruct (axios_post p _ _ _); reflexivity.
  - unfold getCurrentUser. destruct (axios_get p _ _); reflexivity.
  - unfold verifyToken. destruct (axios_get p _ _); reflexivity.
  - cbn. unfold getItem, removeItem. now rewrite H.
  - cbn. unfold getItem, setItem. now rewrite H.
Qed.

Lemma other_keys_untouched_witness :
  getItem "theme"
    (localStorage
       (afterCall (constructor (setItem "theme" "dark" emptyStorage))
          (CallLogin (acceptingServer "abc")
             {| username := "a@b.c"; password := "secret" |})))
  = getItem "theme" (localStorage (constructor (setItem "theme" "dark" emptyStorage))).
Proof.
  apply (other_keys_untouched (constructor (setItem "theme" "dark" emptyStorage))
           (CallLogin (acceptingServer "abc")
              {| username := "a@b.c"; password := "secret" |})
           "theme").
  discriminate.
Defined.

End AuthFacts.

Section ProviderFacts.

Import AuthService.



End ProviderFacts.
